(** * Equation-of-state fitting scripts: [eos.py] and [eos_addition.py]

    A shallow embedding of the two command-line programs of the repository
    and the properties of their model functions and control flow.

    - [Float64]: the numeric interface the model functions are written
      against (Python's arithmetic operators, [np.exp], [np.isnan]).
    - [float64]: its instance used for concrete runs and for the
      real-number identities: a real number or NaN.
    - [Eos] and [EosAddition]: the single-dataset program ([eos.py]) and the
      multi-dataset program ([eos_addition.py]), each with
      [birch_murnaghan], [vinet], [read_data] and [main].
    - The libraries the programs call (pandas, scipy, matplotlib) are the
      environment: their calls are recorded as events of a trace and their
      answers come from an [Env] of oracles. *)

From Stdlib Require Import Ascii String List ZArith Bool Reals Lra Lia.
Import ListNotations.

Set Implicit Arguments.

(* ================================================================== *)
(** * Numbers *)

(** The operations the source applies to numbers. [of_int] is the
    promotion of a Python [int] literal to a float in mixed arithmetic. *)
Class Float64 (A : Type) : Type := {
  of_int : Z -> A;
  add : A -> A -> A;
  sub : A -> A -> A;
  mul : A -> A -> A;
  div : A -> A -> A;      (* true division [/] *)
  pow : A -> A -> A;      (* [**] *)
  exp : A -> A;           (* [np.exp] *)
  isnan : A -> bool       (* [np.isnan] *)
}.

Declare Scope py_scope.
Delimit Scope py_scope with py.
Notation "# z" := (of_int z%Z) (at level 1, format "# z") : py_scope.
Infix "+" := add : py_scope.
Infix "-" := sub : py_scope.
Infix "*" := mul : py_scope.
Infix "/" := div : py_scope.
Infix "**" := pow (at level 30, right associativity) : py_scope.

(** ** Reals with NaN

    A float64 value idealised: [Fin r] is the real number [r], [NaN]
    stands for every result that is not a finite real (IEEE NaN, and the
    infinities of a division by zero or of [0 ** negative]). Rounding,
    overflow and underflow are not modelled: [Fin] results are exact, [exp]
    is never 0 or infinite, and no power or product leaves the reals. What
    is proved of the model functions is proved of the real-valued formulas
    their bodies compute; it is stated only where the floats follow these
    formulas up to rounding as long as every intermediate value stays
    within the double range. *)
Inductive float64 : Type :=
| NaN
| Fin (r : R).

Definition lift2 (f : R -> R -> R) (x y : float64) : float64 :=
  match x, y with
  | Fin a, Fin b => Fin (f a b)
  | _, _ => NaN
  end.

Definition fdiv (x y : float64) : float64 :=
  match x, y with
  | Fin a, Fin b => if Req_dec_T b 0 then NaN else Fin (a / b)
  | _, _ => NaN
  end.

(** [x ** y] as the C library's [pow] computes it on finite arguments:
    anything to the power 0 is 1 and 1 to any power is 1 (also for NaN);
    a positive base gives [exp (y * ln x)]; base 0 gives 0 for a positive
    exponent; a negative base has a real power only for an integer
    exponent. *)
Definition fpow (x y : float64) : float64 :=
  match x, y with
  | Fin b, Fin e =>
      if Req_dec_T e 0 then Fin 1
      else if Rlt_dec 0 b then Fin (Rpower b e)
      else if Req_dec_T b 0 then (if Rlt_dec 0 e then Fin 0 else NaN)
      else if Req_dec_T e (IZR (Int_part e)) then Fin (powerRZ b (Int_part e))
      else NaN
  | NaN, Fin e => if Req_dec_T e 0 then Fin 1 else NaN
  | Fin b, NaN => if Req_dec_T b 1 then Fin 1 else NaN
  | NaN, NaN => NaN
  end.

Definition fexp (x : float64) : float64 :=
  match x with
  | Fin a => Fin (Rtrigo_def.exp a)
  | NaN => NaN
  end.

Definition fisnan (x : float64) : bool :=
  match x with
  | NaN => true
  | Fin _ => false
  end.

#[export] Instance float64_ops : Float64 float64 := {
  of_int z := Fin (IZR z);
  add := lift2 Rplus;
  sub := lift2 Rminus;
  mul := lift2 Rmult;
  div := fdiv;
  pow := fpow;
  exp := fexp;
  isnan := fisnan
}.

(* ================================================================== *)
(** * Tables, events and the run of a program *)

(** A pandas [DataFrame] restricted to what the programs read: the named
    columns in file order, each with its cell values. Cells are numbers (a
    blank cell is NaN); sheets with cells of another kind are outside the
    model. *)
Definition DataFrame (A : Type) : Type := list (string * list A).

(** A table read from a sheet that has its header row and no data row:
    every column is empty. *)
Definition header_only {A} (df : DataFrame A) : bool :=
  forallb (fun c => match snd c with [] => true | _ :: _ => false end) df.

(** The dtype pandas gives the columns of a table of numbers. It is
    inferred from the cells: with no data row there is no cell to infer a
    number type from and every column is of dtype [object]; with data rows
    the columns are [float64], a column of blank cells included. An array
    taken from a column keeps the dtype. *)
Inductive dtype : Type := object | float64_.

Definition dtype_of {A} (df : DataFrame A) : dtype :=
  if header_only df then object else float64_.

(** [data.columns] *)
Definition columns {A} (df : DataFrame A) : list string := map fst df.

(** [data[name]]: the values of the first column of that name. *)
Fixpoint getitem {A} (df : DataFrame A) (name : string) : option (list A) :=
  match df with
  | [] => None
  | (c, vals) :: rest => if String.eqb c name then Some vals else getitem rest name
  end.

(** [set(names).issubset(cols)] *)
Definition issubset (names cols : list string) : bool :=
  forallb (fun n => existsb (String.eqb n) cols) names.

(** [np.isnan(a).any()] on a float array [a]. *)
Definition any_isnan {A} `{Float64 A} (a : list A) : bool := existsb isnan a.

(** The two model functions, as what [curve_fit] is asked to fit. *)
Inductive model : Type := BirchMurnaghan | Vinet.

(** A formatted string: literal text, a value interpolated by an f-string
    ([Repr]) or by the format [%5.3f] ([Fmt53]). How a float prints is left
    to the reader of the trace. *)
Inductive piece (A : Type) : Type :=
| Text (s : string)
| Repr (a : A)
| Fmt53 (a : A).
Arguments Text {A} s.

Definition fstring (A : Type) : Type := list (piece A).

(** What a run does to the outside world, in order. [Interpolate df] is
    the call [df.interpolate()] with its defaults (linear, down the rows).
    A [CurveFit] event records the call ([model], xdata, ydata, [p0],
    [maxfev] when given) and its answer: the message of the exception
    raised, or the optimized parameters. [Legend] keeps the [loc] argument
    only. *)
Inductive event (A : Type) : Type :=
| ReadExcel (filename : string) (usecols : list string)
| Interpolate (df : DataFrame A)
| CurveFit (f : model) (xdata ydata p0 : list A) (maxfev : option Z)
           (answer : string + A * A * A)
| Print (line : fstring A)
| Plot (x y : list A) (fmt color : string) (label : fstring A)
| Ylabel (s : string)
| Xlabel (s : string)
| Title (s : string)
| Legend (loc : string)
| TightLayout
| Savefig (path : string) (dpi : option Z)
| Show.
Arguments ReadExcel {A} filename usecols.
Arguments Ylabel {A} s.
Arguments Xlabel {A} s.
Arguments Title {A} s.
Arguments Legend {A} loc.
Arguments TightLayout {A}.
Arguments Savefig {A} path dpi.
Arguments Show {A}.

(** The exceptions the programs raise outside every [try]. *)
Inductive exn : Type := IndexError | KeyError | TypeError | ZeroDivisionError.

(** How a run stops early: [exit()], or an exception nobody catches. *)
Inductive stop : Type :=
| Exit
| Uncaught (e : exn).

(** A computation: the events it emitted and how it ended. *)
Definition M (A X : Type) : Type := list (event A) * (stop + X).

Definition trace {A X} (m : M A X) : list (event A) := fst m.
Definition outcome {A X} (m : M A X) : stop + X := snd m.

Definition ret {A X} (x : X) : M A X := ([], inr x).

Definition bind {A X Y} (m : M A X) (k : X -> M A Y) : M A Y :=
  match m with
  | (t, inl s) => (t, inl s)
  | (t, inr x) => let (t', r) := k x in (t ++ t', r)
  end.

Declare Scope run_scope.
Delimit Scope run_scope with run.
Notation "x <- m ;; k" := (bind m (fun x => k))
  (at level 61, m at next level, right associativity) : run_scope.
Notation "m ;; k" := (bind m (fun _ => k))
  (at level 61, right associativity) : run_scope.

Definition emit {A} (e : event A) : M A unit := ([e], inr tt).
Definition raise {A X} (e : exn) : M A X := ([], inl (Uncaught e)).

(** [exit()] *)
Definition exit {A X} : M A X := ([], inl Exit).

(** [print(line)] *)
Definition print {A} (line : fstring A) : M A unit := emit (Print line).

(** [if b: body] *)
Definition when {A} (b : bool) (body : M A unit) : M A unit :=
  if b then body else ret tt.

(** [a[i]] on a list or array. *)
Definition index {A X} (a : list X) (i : nat) : M A X :=
  match nth_error a i with
  | Some x => ret x
  | None => raise IndexError
  end.

(** [data[name]] as the program runs it. *)
Definition column {A} (df : DataFrame A) (name : string) : M A (list A) :=
  match getitem df name with
  | Some vals => ret vals
  | None => raise KeyError
  end.

(** An argparse option that was not given is [None]; [len] and indexing
    raise [TypeError] on it. *)
Definition given {A X} (o : option X) : M A X :=
  match o with
  | Some x => ret x
  | None => raise TypeError
  end.

(** [np.isnan(a).any()] on an array [a] of dtype [d]: the ufunc [isnan]
    is not defined on an array of dtype [object], whatever its length, and
    raises [TypeError]. *)
Definition isnan_any {A} `{Float64 A} (d : dtype) (a : list A) : M A bool :=
  match d with
  | object => raise TypeError
  | float64_ => ret (any_isnan a)
  end.

(** [for i in range(n): body i] *)
Fixpoint for_each {A} (l : list nat) (body : nat -> M A unit) : M A unit :=
  match l with
  | [] => ret tt
  | i :: rest => bind (body i) (fun _ => for_each rest body)
  end.

Definition for_range {A} (n : nat) (body : nat -> M A unit) : M A unit :=
  for_each (seq 0 n) body.

(** The libraries as the programs see them: [pd.read_excel(filename,
    usecols=columns)] answers with an exception message or a table;
    [DataFrame.interpolate()] with a table; [curve_fit(f, xdata, ydata,
    p0=..., maxfev=...)] with an exception message or the optimized
    parameters (the covariance it also returns is never read). *)
Record Env (A : Type) : Type := {
  read_excel : string -> list string -> string + DataFrame A;
  interpolate : DataFrame A -> DataFrame A;
  curve_fit : (A -> A -> A -> A -> A) -> list A -> list A -> list A ->
              option Z -> string + A * A * A
}.

(** The newline of a ["\n"] escape. *)
Definition nl : string := String "010"%char EmptyString.

(* ================================================================== *)
(** * The two programs *)

(** The closed forms as the specification writes them, over the reals. *)
Module ClosedForm.
Local Open Scope R_scope.

(** P(V) = (3/2) K0 [(V0/V)^(7/3) - (V0/V)^(5/3)]
             [1 + (3/4)(K0' - 4)((V0/V)^(2/3) - 1)] *)
Definition birch_murnaghan (V V0 K0 K0_prime : R) : R :=
  let r := V0 / V in
  (3 / 2) * K0 * (Rpower r (7 / 3) - Rpower r (5 / 3))
  * (1 + (3 / 4) * (K0_prime - 4) * (Rpower r (2 / 3) - 1)).

(** x = (V/V0)^(1/3), eta = (3/2)(K0' - 1),
      P(V) = 3 K0 (1 - x) exp(eta (1 - x)) *)
Definition vinet (V V0 K0 K0_prime : R) : R :=
  let x := Rpower (V / V0) (1 / 3) in
  let eta := (3 / 2) * (K0_prime - 1) in
  3 * K0 * (1 - x) * Rtrigo_def.exp (eta * (1 - x)).
End ClosedForm.

(** The Birch-Murnaghan closed form of the specification over any
    [Float64], with [K0] a parameter of the formula. *)
Definition bm_closed_form {A} `{Float64 A} (V V0 K0 K0_prime : A) : A :=
  ((#3 / #2) * K0 * ((V0 / V) ** (#7 / #3) - (V0 / V) ** (#5 / #3))
   * (#1 + (#3 / #4) * (K0_prime - #4) * ((V0 / V) ** (#2 / #3) - #1)))%py.

(** [eos.py] *)
Module Eos.
Section Models.
Context {A : Type} `{Float64 A}.
Local Open Scope py_scope.

Definition birch_murnaghan (V V0 K0 K0_prime : A) : A :=
  (#3 / #2) * K0 * ((V0 / V) ** (#7 / #3) - (V0 / V) ** (#5 / #3))
  * (#1 + #3 / #4 * (K0_prime - #4) * ((V0 / V) ** (#2 / #3) - #1)).

Definition vinet (V V0 K0 K0_prime : A) : A :=
  let x := (V / V0) ** (#1 / #3) in
  let eta := #3 / #2 * (K0_prime - #1) in
  #3 * K0 * (#1 - x) * exp (eta * (#1 - x)).
End Models.

(** The parsed command line: four positional arguments. *)
Record Args : Type := {
  filename : string;
  pressure_column : string;
  volume_column : string;
  output_file : string
}.

Section Program.
Context {A : Type} `{Float64 A}.
Variable env : Env A.
Local Open Scope run_scope.

Definition model_fn (f : model) : A -> A -> A -> A -> A :=
  match f with
  | BirchMurnaghan => birch_murnaghan
  | Vinet => vinet
  end.

(** [curve_fit(f, V, P, p0=p0)], with [maxfev=n] when [maxfev] is [Some n]. *)
Definition call_curve_fit (f : model) (V P p0 : list A) (maxfev : option Z)
  : M A (string + A * A * A) :=
  let answer := curve_fit env (model_fn f) V P p0 maxfev in
  emit (CurveFit f V P p0 maxfev answer) ;; ret answer.

Definition read_data (filename : string) (cols : list string)
  : M A (DataFrame A) :=
  emit (ReadExcel filename cols) ;;
  match read_excel env filename cols with
  | inr df => ret df
  | inl e => print [Text "Error reading file: "; Text e] ;; exit
  end.

(** [main], lines 46-51, the Data Loader: the table is read and the
    presence of the two requested columns is checked. *)
Definition data_loader (args : Args) : M A (DataFrame A) :=
  let pc := pressure_column args in
  let vc := volume_column args in
  data <- read_data (filename args) [pc; vc] ;;
  when (negb (issubset [pc; vc] (columns data)))
    (print [Text "Error: not all columns "; Text pc; Text ", "; Text vc;
            Text " exist in the data."] ;;
     exit) ;;
  ret data.

(** [main], lines 53-85: the two fits and the figure. The call
    [birch_murnaghan(V, *popt_bm)] on the array [V] is the function applied
    to each volume. Marker size and edge colour of the data points are not
    recorded in the [Plot] event. *)
Definition fit_and_plot (args : Args) (data : DataFrame A) : M A unit :=
  let pc := pressure_column args in
  let vc := volume_column args in
  V <- column data vc ;;
  P <- column data pc ;;
  v0 <- index V 0 ;;
  let initial_guess := [v0; of_int 1; of_int 1] in
  popt_bm <-
    (answer <- call_curve_fit BirchMurnaghan V P initial_guess None ;;
     match answer with
     | inr (a, b, c) =>
         print [Text "Birch-Murnaghan optimized parameters: V0="; Repr a;
                Text ", K0="; Repr b; Text ", K0_prime="; Repr c] ;;
         ret (a, b, c)
     | inl e =>
         print [Text "Error in Birch-Murnaghan curve fitting: "; Text e] ;;
         exit
     end) ;;
  popt_vinet <-
    (answer <- call_curve_fit Vinet V P initial_guess None ;;
     match answer with
     | inr (a, b, c) =>
         print [Text "Vinet optimized parameters: V0="; Repr a;
                Text ", K0="; Repr b; Text ", K0_prime="; Repr c] ;;
         ret (a, b, c)
     | inl e =>
         print [Text "Error in Vinet curve fitting: "; Text e] ;;
         exit
     end) ;;
  let '(a, b, c) := popt_bm in
  emit (Plot (map (fun v => birch_murnaghan v a b c) V) V ":" "gray"
          [Text "Birch-Murnaghan Fit:"; Text nl; Text "V0="; Fmt53 a;
           Text nl; Text "K0="; Fmt53 b; Text nl; Text "K0_prime=";
           Fmt53 c]) ;;
  emit (Plot P V "o" "mediumblue" [Text "Data"]) ;;
  emit (Ylabel "Volume") ;;
  emit (Xlabel "Pressure") ;;
  emit (Title "EOS: MgSiO3 Bridgmanite") ;;
  emit (Legend "upper right") ;;
  emit (Savefig (output_file args) None) ;;
  emit Show.

Definition main (args : Args) : M A unit :=
  data <- data_loader args ;;
  fit_and_plot args data.
End Program.
End Eos.

(** [eos_addition.py] *)
Module EosAddition.
Section Models.
Context {A : Type} `{Float64 A}.
Local Open Scope py_scope.

(** The parameter [K0] is overwritten by the assignment [K0=160] at the
      top of the body. *)
Definition birch_murnaghan (V V0 K0 K0_prime : A) : A :=
  let K0 := #160 in
  (#3 / #2) * K0 * ((V0 / V) ** (#7 / #3) - (V0 / V) ** (#5 / #3))
  * (#1 + #3 / #4 * (K0_prime - #4) * ((V0 / V) ** (#2 / #3) - #1)).

Definition vinet (V V0 K0 K0_prime : A) : A :=
  let x := (V / V0) ** (#1 / #3) in
  let eta := #3 / #2 * (K0_prime - #1) in
  #3 * K0 * (#1 - x) * exp (eta * (#1 - x)).
End Models.

(** The parsed command line: three positional arguments and the options
    [--pressures], [--volumes] (each [None] when not given) and [--colors]
    (with its default). *)
Record Args : Type := {
  figure_title : string;
  output_file : string;
  filename : string;
  pressures : option (list string);
  volumes : option (list string);
  colors : list string
}.

Definition default_colors : list string :=
  ["mediumblue"; "red"; "green"; "purple"]%string.

Section Program.
Context {A : Type} `{Float64 A}.
Variable env : Env A.
Local Open Scope run_scope.

Definition model_fn (f : model) : A -> A -> A -> A -> A :=
  match f with
  | BirchMurnaghan => birch_murnaghan
  | Vinet => vinet
  end.

(** [curve_fit(f, V, P, p0=p0)], with [maxfev=n] when [maxfev] is [Some n]. *)
Definition call_curve_fit (f : model) (V P p0 : list A) (maxfev : option Z)
  : M A (string + A * A * A) :=
  let answer := curve_fit env (model_fn f) V P p0 maxfev in
  emit (CurveFit f V P p0 maxfev answer) ;; ret answer.

Definition read_data (filename : string) (cols : list string)
  : M A (DataFrame A) :=
  emit (ReadExcel filename cols) ;;
  match read_excel env filename cols with
  | inr df => ret df
  | inl e => print [Text "Error reading file: "; Text e] ;; exit
  end.

(** [... for pressure column {pc} and volume column {vc}] *)
Definition for_columns (pc vc : string) : fstring A :=
  [Text " for pressure column "; Text pc; Text " and volume column ";
   Text vc].

(** [args.colors[i % len(args.colors)]] *)
Definition color_of (cs : list string) (i : nat) : M A string :=
  match cs with
  | [] => raise ZeroDivisionError
  | _ => index cs (i mod length cs)
  end.

(** [main], lines 61-110: the body of the loop over the column pairs, for
    the pair at index [i]; [continue] ends the body. The figure is saved at
    the end of every pass. *)
Definition main_loop_body (args : Args) (ps vs : list string)
  (data : DataFrame A) (i : nat) : M A unit :=
  pc <- index ps i ;;
  vc <- index vs i ;;
  when (negb (issubset [pc; vc] (columns data)))
    (print [Text "Error: not all columns "; Text pc; Text ", "; Text vc;
            Text " exist in the data."] ;;
     exit) ;;
  P <- column data pc ;;
  V <- column data vc ;;
  missing <-
    (nanP <- isnan_any (dtype_of data) P ;;
     if nanP then ret true else isnan_any (dtype_of data) V) ;;
  if missing then
    print [Text "Warning: missing values in data for pressure column ";
           Text pc; Text " and volume column "; Text vc;
           Text ". Skipping this data."]
  else
  v0 <- index V 0 ;;
  let initial_guess := [v0; of_int 160; of_int 5] in
  popt_bm <-
    (answer <- call_curve_fit BirchMurnaghan V P initial_guess (Some 5000%Z) ;;
     match answer with
     | inr (a, b, c) =>
         print (Text "Birch-Murnaghan optimized parameters" :: for_columns pc vc
                ++ [Text ": V0="; Repr a; Text ", K0="; Repr b;
                    Text ", K0_prime="; Repr c]) ;;
         ret (a, b, c)
     | inl e =>
         print (Text "Error in Birch-Murnaghan curve fitting" :: for_columns pc vc
                ++ [Text ": "; Text e]) ;;
         exit
     end) ;;
  popt_vinet <-
    (answer <- call_curve_fit Vinet V P initial_guess None ;;
     match answer with
     | inr (a, b, c) =>
         print (Text "Vinet optimized parameters" :: for_columns pc vc
                ++ [Text ": V0="; Repr a; Text ", K0="; Repr b;
                    Text ", K0_prime="; Repr c]) ;;
         ret (a, b, c)
     | inl e =>
         print (Text "Error in Vinet curve fitting" :: for_columns pc vc
                ++ [Text ": "; Text e]) ;;
         exit
     end) ;;
  let '(a, b, c) := popt_bm in
  color <- color_of (colors args) i ;;
  emit (Plot (map (fun v => birch_murnaghan v a b c) V) V ":" color
          [Text "Birch-Murnaghan Fit:"; Text nl; Text "V0="; Fmt53 a;
           Text nl; Text "K0="; Fmt53 b; Text nl; Text "K0_prime=";
           Fmt53 c]) ;;
  color <- color_of (colors args) i ;;
  vlabel <- index vs i ;;
  emit (Plot P V "o" color [Text vlabel]) ;;
  emit (Ylabel "Volume") ;;
  emit (Xlabel "Pressure") ;;
  emit (Title (figure_title args)) ;;
  emit (Legend "upper left") ;;
  emit TightLayout ;;
  emit (Savefig (output_file args) (Some 800%Z)).

Definition main (args : Args) : M A unit :=
  ps <- given (pressures args) ;;
  vs <- given (volumes args) ;;
  when (negb (length ps =? length vs)%nat)
    (print [Text "Error: Number of pressure columns and volume columns must be equal."] ;;
     exit) ;;
  data <- read_data (filename args) (ps ++ vs) ;;
  emit (Interpolate data) ;;
  let data := interpolate env data in
  for_range (length ps) (main_loop_body args ps vs data).
End Program.
End EosAddition.

(* ================================================================== *)
(** * Vocabulary of the properties *)

(** The table restricted to the columns named in [cols], in file order:
    what [usecols=cols] selects. *)
Definition usecols {A} (cols : list string) (src : DataFrame A) : DataFrame A :=
  filter (fun c => existsb (String.eqb (fst c)) cols) src.

(** What the programs rely on from [pd.read_excel], against the files
    [fs] on disk ([None]: no such file, or not a spreadsheet): a table it
    returns is the file restricted to the requested columns, and it returns
    one whenever the file has all of them. Whether it raises or returns a
    smaller table when a column is missing is left open. *)
Definition reads_files {A} (fs : string -> option (DataFrame A)) (env : Env A)
  : Prop :=
  (forall fn cols df, read_excel env fn cols = inr df ->
     exists src, fs fn = Some src /\ df = usecols cols src)
  /\ (forall fn cols src, fs fn = Some src ->
        issubset cols (columns src) = true ->
        exists df, read_excel env fn cols = inr df).

(** The columns the single-dataset program asks for. *)
Definition requested (args : Eos.Args) : list string :=
  [Eos.pressure_column args; Eos.volume_column args].

(** Every requested column is in the file. *)
Definition all_present {A} (fs : string -> option (DataFrame A))
  (args : Eos.Args) : Prop :=
  exists src, fs (Eos.filename args) = Some src
              /\ forall c, In c (requested args) -> In c (columns src).

(** The line of the column check of [main]. *)
Definition missing_columns_line {A} (pc vc : string) : fstring A :=
  [Text "Error: not all columns "; Text pc; Text ", "; Text vc;
   Text " exist in the data."].

(** The two error lines of the Data Loader. *)
Definition is_load_error {A} (args : Eos.Args) (line : fstring A) : Prop :=
  (exists e, line = [Text "Error reading file: "; Text e])
  \/ line = missing_columns_line (Eos.pressure_column args)
              (Eos.volume_column args).

(** [DataFrame.interpolate()] keeps the columns and the number of rows. *)
Definition shape {A} (df : DataFrame A) : list (string * nat) :=
  map (fun c => (fst c, length (snd c))) df.

Definition interpolate_keeps_shape {A} (env : Env A) : Prop :=
  forall df, shape (interpolate env df) = shape df.

(** Events by kind. *)
Definition is_fit {A} (e : event A) : bool :=
  match e with CurveFit _ _ _ _ _ _ => true | _ => false end.

Definition is_failed_fit {A} (e : event A) : bool :=
  match e with CurveFit _ _ _ _ _ (inl _) => true | _ => false end.

Definition is_interpolate {A} (e : event A) : bool :=
  match e with Interpolate _ => true | _ => false end.

Definition is_savefig {A} (e : event A) : bool :=
  match e with Savefig _ _ => true | _ => false end.

(** [sub] occurs in [s]. *)
Definition contains (sub s : string) : bool :=
  match String.index 0 sub s with Some _ => true | None => false end.

(** A line whose literal text mentions [name]. *)
Definition mentions {A} (name : string) (line : fstring A) : bool :=
  existsb (fun p => match p with Text s => contains name s | _ => false end) line.

Definition is_warning {A} (e : event A) : bool :=
  match e with
  | Print (Text s :: _) => String.prefix "Warning" s
  | _ => false
  end.

(** The maximum-iteration budget of a fitting call: [maxfev], [None] for
    the optimizer's default. *)
Definition budget_single {A} (e : event A) : Prop :=
  match e with
  | CurveFit _ _ _ _ maxfev _ => maxfev = None
  | _ => True
  end.

Definition budget_addition {A} (e : event A) : Prop :=
  match e with
  | CurveFit BirchMurnaghan _ _ _ maxfev _ => maxfev = Some 5000%Z
  | CurveFit Vinet _ _ _ maxfev _ => maxfev = None
  | _ => True
  end.

Definition budget_eqb (a b : option Z) : bool :=
  match a, b with
  | None, None => true
  | Some x, Some y => Z.eqb x y
  | _, _ => false
  end.

(** Every fitting call of the trace has the budget [b]. *)
Definition every_budget_is {A} (b : option Z) (t : list (event A)) : bool :=
  forallb (fun e => match e with
                    | CurveFit _ _ _ _ maxfev _ => budget_eqb maxfev b
                    | _ => true
                    end) t.




(** A run that interpolates; a run that skipped its data with a warning
    and fitted nothing. *)
Definition interpolates {A} (t : list (event A)) : Prop :=
  existsb is_interpolate t = true.

Definition skips_with_warning {A} (t : list (event A)) : Prop :=
  existsb is_warning t = true /\ existsb is_fit t = false.

(** Some printed line mentions both column names. *)
Definition reports_columns {A} (pc vc : string) (t : list (event A)) : bool :=
  existsb (fun e => match e with
                    | Print line => mentions pc line && mentions vc line
                    | _ => false
                    end) t.

(** The warning of the multi-dataset program for a pair with missing
    values. *)
Definition missing_values_line {A} (pc vc : string) : fstring A :=
  [Text "Warning: missing values in data for pressure column "; Text pc;
   Text " and volume column "; Text vc; Text ". Skipping this data."].

(** The error line of a failed fit: the single-dataset program names the
    model, the multi-dataset program the model and the two columns. *)
Definition eos_fit_error {A} (f : model) (e : string) : fstring A :=
  match f with
  | BirchMurnaghan => [Text "Error in Birch-Murnaghan curve fitting: "; Text e]
  | Vinet => [Text "Error in Vinet curve fitting: "; Text e]
  end.

Definition addition_fit_error {A} (f : model) (pc vc e : string) : fstring A :=
  Text match f with
       | BirchMurnaghan => "Error in Birch-Murnaghan curve fitting"
       | Vinet => "Error in Vinet curve fitting"
       end
  :: EosAddition.for_columns pc vc ++ [Text ": "; Text e].

(** What follows a failed fitting call [ev] in the single-dataset
    program: its error line and nothing else. *)
Definition eos_failure_report {A} (ev : event A) (rest : list (event A)) : Prop :=
  match ev with
  | CurveFit f _ _ _ _ (inl e) => rest = [Print (eos_fit_error f e)]
  | _ => True
  end.

(** What follows a failed fitting call [ev] in the multi-dataset program:
    the error line naming the pair of columns whose data the call was
    given, and nothing else. *)
Definition addition_failure_report {A} (env : Env A) (args : EosAddition.Args)
  (ev : event A) (rest : list (event A)) : Prop :=
  match ev with
  | CurveFit f xdata ydata _ _ (inl e) =>
      exists ps vs df i pc vc,
        EosAddition.pressures args = Some ps
        /\ EosAddition.volumes args = Some vs
        /\ read_excel env (EosAddition.filename args) (ps ++ vs) = inr df
        /\ nth_error ps i = Some pc
        /\ nth_error vs i = Some vc
        /\ getitem (interpolate env df) pc = Some ydata
        /\ getitem (interpolate env df) vc = Some xdata
        /\ rest = [Print (addition_fit_error f pc vc e)]
  | _ => True
  end.

(** [R ev rest] for every failed fitting call [ev] of a trace and the
    events [rest] that follow it. *)
Fixpoint each_failed_fit {A} (R : event A -> list (event A) -> Prop)
  (t : list (event A)) : Prop :=
  match t with
  | [] => True
  | ev :: rest =>
      (is_failed_fit ev = true -> R ev rest) /\ each_failed_fit R rest
  end.

(** A computation in which a failed fitting call is followed by what [R]
    allows and by [exit()]. *)
Definition stops_on_failed_fit {A X} (R : event A -> list (event A) -> Prop)
  (m : M A X) : Prop :=
  each_failed_fit (fun ev rest => R ev rest /\ outcome m = inl Exit) (trace m).

(* ================================================================== *)
(** * Sample worlds

    Spreadsheets, library behaviours and command lines for concrete runs.
    The tables have no gap that [interpolate] would fill (a missing first
    cell stays missing), so on them [interpolate] returns its argument. *)
Module Sample.
Local Open Scope string_scope.

Definition pressures_GPa : list float64 := [Fin 0; Fin 5; Fin 10; Fin 20].

Definition table : DataFrame float64 :=
  [("P_GPa", pressures_GPa);
   ("V_A3", [Fin 10; Fin (98 / 10); Fin (96 / 10); Fin (92 / 10)])].

(** The first volume cell is blank. *)
Definition gaps : DataFrame float64 :=
  [("P_GPa", pressures_GPa);
   ("V_A3", [NaN; Fin (98 / 10); Fin (96 / 10); Fin (92 / 10)])].

(** A header row and nothing below it. *)
Definition no_rows : DataFrame float64 := [("P_GPa", []); ("V_A3", [])].

Definition two_sets : DataFrame float64 :=
  [("P1", pressures_GPa);
   ("V1", [Fin 10; Fin (98 / 10); Fin (96 / 10); Fin (92 / 10)]);
   ("P2", pressures_GPa);
   ("V2", [Fin 20; Fin (39 / 2); Fin 19; Fin 18])].

Definition files (fn : string) : option (DataFrame float64) :=
  if fn =? "data.xlsx" then Some table
  else if fn =? "gaps.xlsx" then Some gaps
  else if fn =? "empty.xlsx" then Some no_rows
  else if fn =? "two.xlsx" then Some two_sets
  else None.

(** [pd.read_excel] raising when the file or a requested column is
    missing. *)
Definition pandas_read_excel (fn : string) (cols : list string)
  : string + DataFrame float64 :=
  match files fn with
  | None => inl "No such file or directory"
  | Some src =>
      if issubset cols (columns src) then inr (usecols cols src)
      else inl "Usecols do not match columns, columns expected but not found"
  end.

Definition popt : float64 * float64 * float64 := (Fin 10, Fin 160, Fin 4).

Definition no_convergence : string :=
  "Optimal parameters not found: Number of calls to function has reached maxfev".

(** [curve_fit] refusing NaN data and converging otherwise. *)
Definition fit_converges (f : float64 -> float64 -> float64 -> float64 -> float64)
  (xdata ydata p0 : list float64) (maxfev : option Z)
  : string + float64 * float64 * float64 :=
  if any_isnan xdata || any_isnan ydata
  then inl "array must not contain infs or NaNs"
  else inr popt.

(** [curve_fit] never converging. *)
Definition fit_fails (f : float64 -> float64 -> float64 -> float64 -> float64)
  (xdata ydata p0 : list float64) (maxfev : option Z)
  : string + float64 * float64 * float64 :=
  inl no_convergence.

(** [curve_fit] converging only on datasets whose first volume is below
    15. *)
Definition fit_small_cells_only
  (f : float64 -> float64 -> float64 -> float64 -> float64)
  (xdata ydata p0 : list float64) (maxfev : option Z)
  : string + float64 * float64 * float64 :=
  match xdata with
  | Fin v :: _ => if Rlt_dec v 15 then inr popt else inl no_convergence
  | _ => inl no_convergence
  end.

Definition env : Env float64 :=
  {| read_excel := pandas_read_excel;
     interpolate := fun df => df;
     curve_fit := fit_converges |}.

Definition env_fit_fails : Env float64 :=
  {| read_excel := pandas_read_excel;
     interpolate := fun df => df;
     curve_fit := fit_fails |}.

Definition env_second_fails : Env float64 :=
  {| read_excel := pandas_read_excel;
     interpolate := fun df => df;
     curve_fit := fit_small_cells_only |}.

Definition eos_args (fn : string) : Eos.Args :=
  {| Eos.filename := fn;
     Eos.pressure_column := "P_GPa";
     Eos.volume_column := "V_A3";
     Eos.output_file := "fit.png" |}.

Definition addition_args (fn : string) (ps vs : list string) : EosAddition.Args :=
  {| EosAddition.figure_title := "EOS";
     EosAddition.output_file := "fits.png";
     EosAddition.filename := fn;
     EosAddition.pressures := Some ps;
     EosAddition.volumes := Some vs;
     EosAddition.colors := EosAddition.default_colors |}.

(** The runs the properties are tried on. *)
Definition eos_on_table : M float64 unit := Eos.main env (eos_args "data.xlsx").

Definition addition_on_table : M float64 unit :=
  EosAddition.main env (addition_args "data.xlsx" ["P_GPa"] ["V_A3"]).

Definition eos_on_gaps : M float64 unit := Eos.main env (eos_args "gaps.xlsx").

Definition addition_on_gaps : M float64 unit :=
  EosAddition.main env (addition_args "gaps.xlsx" ["P_GPa"] ["V_A3"]).

Definition eos_on_no_rows : M float64 unit := Eos.main env (eos_args "empty.xlsx").

Definition addition_on_no_rows : M float64 unit :=
  EosAddition.main env (addition_args "empty.xlsx" ["P_GPa"] ["V_A3"]).

Definition eos_fit_failing : M float64 unit :=
  Eos.main env_fit_fails (eos_args "data.xlsx").

Definition addition_second_failing : M float64 unit :=
  EosAddition.main env_second_fails
    (addition_args "two.xlsx" ["P1"; "P2"] ["V1"; "V2"]).

End Sample.

(* ================================================================== *)
(** * Vocabulary of the further properties *)

(** The real number a float64 value stands for (0 for NaN); used where a
    value is known to be a number. *)
Definition real_of (x : float64) : R :=
  match x with
  | Fin r => r
  | NaN => 0%R
  end.

(** How many events of a kind a trace has. *)
Definition count {A} (kind : event A -> bool) (t : list (event A)) : nat :=
  length (filter kind t).

(** A [savefig] call with this path and resolution. *)
Definition saves_to {A} (path : string) (dpi : option Z) (e : event A) : Prop :=
  match e with
  | Savefig p d => p = path /\ d = dpi
  | _ => True
  end.




(** The label of the fitted curve in the legend. *)
Definition fit_label {A} (popt : A * A * A) : fstring A :=
  let '(a, b, c) := popt in
  [Text "Birch-Murnaghan Fit:"; Text nl; Text "V0="; Fmt53 a;
   Text nl; Text "K0="; Fmt53 b; Text nl; Text "K0_prime="; Fmt53 c].

(** [V0=..., K0=..., K0_prime=...] *)
Definition parameters {A} (popt : A * A * A) : fstring A :=
  let '(a, b, c) := popt in
  [Text ": V0="; Repr a; Text ", K0="; Repr b; Text ", K0_prime="; Repr c].

(** The events of a run of [eos.py] in which the table loads and both
    fits succeed, with answers [bm] and [vn]. *)
Definition eos_complete_run {A} `{Float64 A} (args : Eos.Args)
  (V P : list A) (p0 : list A) (bm vn : A * A * A) : list (event A) :=
  let '(a, b, c) := bm in
  let '(a', b', c') := vn in
  [ReadExcel (Eos.filename args) (requested args);
   CurveFit BirchMurnaghan V P p0 None (inr bm);
   Print [Text "Birch-Murnaghan optimized parameters: V0="; Repr a;
          Text ", K0="; Repr b; Text ", K0_prime="; Repr c];
   CurveFit Vinet V P p0 None (inr vn);
   Print [Text "Vinet optimized parameters: V0="; Repr a';
          Text ", K0="; Repr b'; Text ", K0_prime="; Repr c'];
   Plot (map (fun v => Eos.birch_murnaghan v a b c) V) V ":" "gray" (fit_label bm);
   Plot P V "o" "mediumblue" [Text "Data"];
   Ylabel "Volume"; Xlabel "Pressure"; Title "EOS: MgSiO3 Bridgmanite";
   Legend "upper right"; Savefig (Eos.output_file args) None; Show].

(** The events of one pass of the loop of [eos_addition.py] over a pair
    without missing values whose two fits succeed. *)
Definition addition_complete_pass {A} `{Float64 A} (args : EosAddition.Args)
  (pc vc color : string) (V P : list A) (p0 : list A) (bm vn : A * A * A)
  : list (event A) :=
  let '(a, b, c) := bm in
  [CurveFit BirchMurnaghan V P p0 (Some 5000%Z) (inr bm);
   Print (Text "Birch-Murnaghan optimized parameters"
          :: EosAddition.for_columns pc vc ++ parameters bm);
   CurveFit Vinet V P p0 None (inr vn);
   Print (Text "Vinet optimized parameters"
          :: EosAddition.for_columns pc vc ++ parameters vn);
   Plot (map (fun v => EosAddition.birch_murnaghan v a b c) V) V ":" color
     (fit_label bm);
   Plot P V "o" color [Text vc];
   Ylabel "Volume"; Xlabel "Pressure"; Title (EosAddition.figure_title args);
   Legend "upper left"; TightLayout;
   Savefig (EosAddition.output_file args) (Some 800%Z)].

(* ================================================================== *)
(** * Properties of the model functions *)

Unset Implicit Arguments.
Arguments issubset : simpl never.
Arguments any_isnan : simpl never.

Section RealArithmetic.
Local Open Scope R_scope.

Lemma fdiv_fin (a b : R) : b <> 0 -> fdiv (Fin a) (Fin b) = Fin (a / b).
Proof.
  intros Hb. unfold fdiv. destruct (Req_dec_T b 0); [contradiction | reflexivity].
Qed.

Lemma fpow_pos (b e : R) :
  0 < b -> e <> 0 -> fpow (Fin b) (Fin e) = Fin (Rpower b e).
Proof.
  intros Hb He. unfold fpow.
  destruct (Req_dec_T e 0); [contradiction |].
  destruct (Rlt_dec 0 b); [reflexivity | contradiction].
Qed.

Lemma ratio (p q : Z) :
  IZR q <> 0 -> div (of_int p) (of_int q) = Fin (IZR p / IZR q).
Proof. intros Hq. simpl. now apply fdiv_fin. Qed.

Lemma Rpower_one (y : R) : Rpower 1 y = 1.
Proof. unfold Rpower. rewrite ln_1, Rmult_0_r. apply exp_0. Qed.

(** On positive volumes the Birch-Murnaghan body of [eos.py] computes in
    the reals: no branch of [/] or [**] leaves them. *)
Lemma birch_murnaghan_real (V V0 K0 K0_prime : R) :
  0 < V -> 0 < V0 ->
  Eos.birch_murnaghan (Fin V) (Fin V0) (Fin K0) (Fin K0_prime)
  = Fin (ClosedForm.birch_murnaghan V V0 K0 K0_prime).
Proof.
  intros HV HV0.
  assert (Hr : 0 < V0 / V) by (apply Rdiv_lt_0_compat; assumption).
  unfold Eos.birch_murnaghan, ClosedForm.birch_murnaghan.
  rewrite !ratio by lra.
  change (div (Fin V0) (Fin V)) with (fdiv (Fin V0) (Fin V)).
  rewrite fdiv_fin by lra.
  change (@pow float64 _) with fpow.
  rewrite !fpow_pos by lra.
  reflexivity.
Qed.

Lemma vinet_real (V V0 K0 K0_prime : R) :
  0 < V -> 0 < V0 ->
  Eos.vinet (Fin V) (Fin V0) (Fin K0) (Fin K0_prime)
  = Fin (ClosedForm.vinet V V0 K0 K0_prime).
Proof.
  intros HV HV0.
  assert (Hr : 0 < V / V0) by (apply Rdiv_lt_0_compat; assumption).
  unfold Eos.vinet, ClosedForm.vinet.
  rewrite !ratio by lra.
  change (div (Fin V) (Fin V0)) with (fdiv (Fin V) (Fin V0)).
  rewrite fdiv_fin by lra.
  change (@pow float64 _) with fpow.
  rewrite !fpow_pos by lra.
  reflexivity.
Qed.

End RealArithmetic.

(** [eos_addition.py] repeats [vinet] of [eos.py] word for word, and its
    [birch_murnaghan] is the one of [eos.py] called with [K0 = 160]. *)
Lemma vinet_same {A} `{Float64 A} (V V0 K0 K0_prime : A) :
  EosAddition.vinet V V0 K0 K0_prime = Eos.vinet V V0 K0 K0_prime.
Proof. reflexivity. Qed.

Lemma birch_murnaghan_at_160 {A} `{Float64 A} (V V0 K0 K0_prime : A) :
  EosAddition.birch_murnaghan V V0 K0 K0_prime
  = Eos.birch_murnaghan V V0 (of_int 160) K0_prime.
Proof. reflexivity. Qed.

(** C1. In [eos_addition.py], [birch_murnaghan] ignores the [K0] it is
    passed: two calls that differ only in [K0] return the same value, and
    that value is the Birch-Murnaghan closed form taken at [K0 = 160]. This
    holds for every interpretation of the arithmetic, on every input. *)
Theorem birch_murnaghan_pins_K0 {A} `{Float64 A}
  (V V0 K0 K0' K0_prime : A) :
  EosAddition.birch_murnaghan V V0 K0 K0_prime
  = EosAddition.birch_murnaghan V V0 K0' K0_prime
  /\ EosAddition.birch_murnaghan V V0 K0 K0_prime
     = bm_closed_form V V0 (of_int 160) K0_prime.
Proof. split; reflexivity. Qed.

(** C3. At the reference volume both model functions of [eos.py] return
    zero pressure: for every real [V0 > 0] and all real [K0], [K0_prime],
    [birch_murnaghan(V0, V0, K0, K0_prime) = 0] and
    [vinet(V0, V0, K0, K0_prime) = 0]. *)
Theorem zero_pressure_at_reference_volume (V0 K0 K0_prime : R) :
  (0 < V0)%R ->
  Eos.birch_murnaghan (Fin V0) (Fin V0) (Fin K0) (Fin K0_prime) = Fin 0
  /\ Eos.vinet (Fin V0) (Fin V0) (Fin K0) (Fin K0_prime) = Fin 0.
Proof.
  intros HV0.
  rewrite birch_murnaghan_real, vinet_real by assumption.
  unfold ClosedForm.birch_murnaghan, ClosedForm.vinet.
  rewrite Rdiv_diag by lra. cbv zeta. rewrite !Rpower_one.
  split; f_equal; ring.
Qed.

Lemma zero_pressure_at_reference_volume_witness :
  (0 < 10)%R
  /\ Eos.birch_murnaghan (Fin 10) (Fin 10) (Fin 160) (Fin 5) = Fin 0
  /\ Eos.vinet (Fin 10) (Fin 10) (Fin 160) (Fin 5) = Fin 0.
Proof.
  split; [lra | apply (zero_pressure_at_reference_volume 10 160 5); lra].
Defined.

(** X1. The model functions of [eos_addition.py] return zero pressure at
    the reference volume as well: for every real [V0 > 0] and all real
    [K0], [K0_prime]. *)
Lemma zero_pressure_at_reference_volume_addition (V0 K0 K0_prime : R) :
  (0 < V0)%R ->
  EosAddition.birch_murnaghan (Fin V0) (Fin V0) (Fin K0) (Fin K0_prime) = Fin 0
  /\ EosAddition.vinet (Fin V0) (Fin V0) (Fin K0) (Fin K0_prime) = Fin 0.
Proof.
  intros HV0. rewrite birch_murnaghan_at_160, vinet_same.
  change (@of_int float64 _ 160) with (Fin 160).
  rewrite birch_murnaghan_real, vinet_real by assumption.
  unfold ClosedForm.birch_murnaghan, ClosedForm.vinet.
  rewrite Rdiv_diag by lra. cbv zeta. rewrite !Rpower_one.
  split; f_equal; ring.
Qed.

Lemma zero_pressure_at_reference_volume_addition_witness :
  (0 < 10)%R
  /\ EosAddition.birch_murnaghan (Fin 10) (Fin 10) (Fin 1) (Fin 5) = Fin 0
  /\ EosAddition.vinet (Fin 10) (Fin 10) (Fin 160) (Fin 5) = Fin 0.
Proof.
  split; [lra |].
  split; [apply (zero_pressure_at_reference_volume_addition 10 1 5)
         | apply (zero_pressure_at_reference_volume_addition 10 160 5)]; lra.
Defined.

(** C4. For real [V > 0], [V0 > 0] and all real [K0], [K0_prime], the
    model functions of [eos.py] return the closed forms of the
    specification, with the parameters they were passed. *)
Theorem model_functions_are_closed_forms (V V0 K0 K0_prime : R) :
  (0 < V)%R -> (0 < V0)%R ->
  Eos.birch_murnaghan (Fin V) (Fin V0) (Fin K0) (Fin K0_prime)
  = Fin (ClosedForm.birch_murnaghan V V0 K0 K0_prime)
  /\ Eos.vinet (Fin V) (Fin V0) (Fin K0) (Fin K0_prime)
     = Fin (ClosedForm.vinet V V0 K0 K0_prime).
Proof.
  intros HV HV0. split; [apply birch_murnaghan_real | apply vinet_real]; assumption.
Qed.

Lemma model_functions_are_closed_forms_witness :
  (0 < 9)%R /\ (0 < 10)%R
  /\ Eos.birch_murnaghan (Fin 9) (Fin 10) (Fin 160) (Fin 5)
     = Fin (ClosedForm.birch_murnaghan 9 10 160 5)
  /\ Eos.vinet (Fin 9) (Fin 10) (Fin 160) (Fin 5)
     = Fin (ClosedForm.vinet 9 10 160 5).
Proof.
  split; [lra | split; [lra |]].
  apply (model_functions_are_closed_forms 9 10 160 5); lra.
Defined.

(* ================================================================== *)
(** * Properties of the runs *)

Section Runs.
Context {A : Type} `{Float64 A}.

Lemma trace_bind {X Y} (m : M A X) (k : X -> M A Y) :
  trace (bind m k)
  = match outcome m with
    | inl _ => trace m
    | inr x => trace m ++ trace (k x)
    end.
Proof. destruct m as [t [s | x]]; simpl; [reflexivity |]. now destruct (k x). Qed.

Lemma outcome_bind {X Y} (m : M A X) (k : X -> M A Y) :
  outcome (bind m k)
  = match outcome m with
    | inl s => inl s
    | inr x => outcome (k x)
    end.
Proof. destruct m as [t [s | x]]; simpl; [reflexivity |]. now destruct (k x). Qed.


Lemma bind_ret {X Y} (x : X) (k : X -> M A Y) : bind (ret x) k = k x.
Proof. unfold bind, ret. now destruct (k x). Qed.

(** A property of every event passes through sequencing; the
    continuation is only asked about the values the first part returns. *)
Lemma Forall_bind {X Y} (P : event A -> Prop) (m : M A X) (k : X -> M A Y) :
  Forall P (trace m) ->
  (forall x, outcome m = inr x -> Forall P (trace (k x))) ->
  Forall P (trace (bind m k)).
Proof.
  intros Hm Hk. rewrite trace_bind.
  destruct (outcome m) as [s | x] eqn:E; [assumption |].
  apply Forall_app. split; [assumption | now apply Hk].
Qed.

Lemma Forall_for_each (P : event A -> Prop) (l : list nat) (body : nat -> M A unit) :
  (forall i, In i l -> Forall P (trace (body i))) ->
  Forall P (trace (for_each l body)).
Proof.
  induction l as [| i rest IH]; intros Hbody; simpl.
  - constructor.
  - apply Forall_bind; [apply Hbody; now left |].
    intros _ _. apply IH. intros j Hj. apply Hbody. now right.
Qed.

End Runs.

(** One step of a proof that every event of a run has a property: the
    run is taken apart along its sequencing and its branches. *)
Ltac forall_step :=
  lazymatch goal with
  | |- Forall _ (trace (bind _ _)) =>
      apply Forall_bind; [ | let x := fresh "x" in
                             let Hx := fresh "Hx" in intros x Hx ]
  | |- Forall _ (trace (emit _)) => apply Forall_cons; [ | apply Forall_nil ]
  | |- Forall _ (trace (print _)) => apply Forall_cons; [ | apply Forall_nil ]
  | |- Forall _ (trace (ret _)) => apply Forall_nil
  | |- Forall _ (trace exit) => apply Forall_nil
  | |- Forall _ (trace (raise _)) => apply Forall_nil
  | |- Forall _ (trace (when ?b _)) => destruct b; unfold when
  | |- Forall _ (trace (index ?a ?i)) =>
      unfold index; destruct (nth_error a i); apply Forall_nil
  | |- Forall _ (trace (column ?d ?c)) =>
      unfold column; destruct (getitem d c); apply Forall_nil
  | |- Forall _ (trace (given ?o)) =>
      unfold given; destruct o; apply Forall_nil
  | |- Forall _ (trace (isnan_any ?d _)) =>
      unfold isnan_any; destruct d; apply Forall_nil
  | |- Forall _ (trace (for_range _ _)) =>
      apply Forall_for_each; let i := fresh "i" in intros i _
  | |- Forall _ (trace (match ?x with _ => _ end)) => destruct x eqn:?
  end.

Tactic Notation "forall_bind" "as" ident(x) ident(Hx) :=
  apply Forall_bind; [ | intros x Hx ].

Section Inversion.
Context {A : Type} `{Float64 A}.
Variable env : Env A.

Lemma index_inr {X} (a : list X) (i : nat) (x : X) :
  outcome (index (A:=A) a i) = inr x -> nth_error a i = Some x.
Proof. unfold index. destruct (nth_error a i); simpl; congruence. Qed.

Lemma column_inr (df : DataFrame A) (c : string) (vals : list A) :
  outcome (column df c) = inr vals -> getitem df c = Some vals.
Proof. unfold column. destruct (getitem df c); simpl; congruence. Qed.

Lemma given_inr {X} (o : option X) (x : X) :
  outcome (given (A:=A) o) = inr x -> o = Some x.
Proof. unfold given. destruct o; simpl; congruence. Qed.

Lemma addition_read_data_inr (fn : string) (cols : list string) (df : DataFrame A) :
  outcome (EosAddition.read_data env fn cols) = inr df ->
  read_excel env fn cols = inr df.
Proof.
  unfold EosAddition.read_data. destruct (read_excel env fn cols); simpl; congruence.
Qed.

Lemma data_loader_inr (args : Eos.Args) (df : DataFrame A) :
  outcome (Eos.data_loader env args) = inr df ->
  read_excel env (Eos.filename args)
    [Eos.pressure_column args; Eos.volume_column args] = inr df
  /\ issubset [Eos.pressure_column args; Eos.volume_column args] (columns df) = true.
Proof.
  unfold Eos.data_loader, Eos.read_data.
  destruct (read_excel env _ _) as [e | d]; simpl; [discriminate |].
  destruct (issubset _ (columns d)) eqn:Esub; simpl; [| discriminate].
  intros E. injection E as ->. split; [reflexivity | assumption].
Qed.

End Inversion.

Section FitCalls.
Context {A : Type} `{Float64 A}.
Variable env : Env A.

Lemma budget_of_eos (args : Eos.Args) :
  Forall budget_single (trace (Eos.main env args)).
Proof.
  unfold Eos.main, Eos.data_loader, Eos.fit_and_plot, Eos.read_data,
    Eos.call_curve_fit.
  repeat forall_step; exact I || reflexivity.
Qed.

Lemma budget_of_addition (args : EosAddition.Args) :
  Forall budget_addition (trace (EosAddition.main env args)).
Proof.
  unfold EosAddition.main, EosAddition.main_loop_body, EosAddition.read_data,
    EosAddition.call_curve_fit, EosAddition.color_of.
  repeat forall_step; exact I || reflexivity.
Qed.



End FitCalls.

Section Tables.
Context {A : Type}.

Lemma getitem_In (df : DataFrame A) (c : string) (vals : list A) :
  getitem df c = Some vals -> In c (columns df).
Proof.
  induction df as [| [n v] rest IH]; simpl; [discriminate |].
  destruct (String.eqb n c) eqn:E.
  - apply String.eqb_eq in E. now left.
  - intros Hg. right. now apply IH.
Qed.

Lemma existsb_eqb_In (c : string) (l : list string) :
  existsb (String.eqb c) l = true <-> In c l.
Proof.
  rewrite existsb_exists. split.
  - intros [x [Hx E]]. apply String.eqb_eq in E. now subst.
  - intros Hin. exists c. split; [assumption | apply String.eqb_refl].
Qed.

Lemma issubset_In (names cols : list string) :
  issubset names cols = true <-> (forall c, In c names -> In c cols).
Proof.
  unfold issubset. rewrite forallb_forall. split; intros Hs c Hc.
  - now apply existsb_eqb_In, Hs.
  - now apply existsb_eqb_In, Hs.
Qed.

Lemma columns_usecols (cols : list string) (src : DataFrame A) (c : string) :
  In c (columns (usecols cols src)) <-> In c (columns src) /\ In c cols.
Proof.
  unfold columns, usecols. rewrite !in_map_iff. split.
  - intros [[n v] [<- Hin]]. apply filter_In in Hin as [Hin Hk]. simpl in *.
    split; [exists (n, v); now split | now apply existsb_eqb_In].
  - intros [[[n v] [<- Hin]] Hc]. exists (n, v). split; [reflexivity |].
    apply filter_In. split; [assumption | now apply existsb_eqb_In].
Qed.

(** A requested column comes out of [usecols] with the rows it has in
    the file. *)
Lemma getitem_usecols (cols : list string) (src : DataFrame A) (c : string) :
  In c cols -> getitem (usecols cols src) c = getitem src c.
Proof.
  intros Hc. induction src as [| [n v] rest IH]; simpl; [reflexivity |].
  destruct (existsb (String.eqb n) cols) eqn:Ek; simpl.
  - now rewrite IH.
  - destruct (String.eqb n c) eqn:E; [| assumption].
    apply String.eqb_eq in E. subst n.
    apply existsb_eqb_In in Hc. congruence.
Qed.

End Tables.

Section Dtypes.
Context {A : Type} `{Float64 A}.

(** Every column of a table without data rows is empty. *)
Lemma header_only_getitem (df : DataFrame A) (c : string) (vals : list A) :
  header_only df = true -> getitem df c = Some vals -> vals = [].
Proof.
  induction df as [| [n v] rest IH]; simpl; [discriminate |].
  intros Hh Hg. apply andb_prop in Hh as [Hv Hrest].
  destruct (String.eqb n c).
  - injection Hg as <-. now destruct v.
  - now apply IH.
Qed.

(** A column with a first row is a column of floats. *)
Lemma row_not_header_only (df : DataFrame A) (c : string) (v : A) (rest : list A) :
  getitem df c = Some (v :: rest) -> header_only df = false.
Proof.
  intros Hg. destruct (header_only df) eqn:Hh; [| reflexivity].
  discriminate (header_only_getitem df c _ Hh Hg).
Qed.

(** So is a column with a missing value. *)
Lemma missing_value_not_header_only (df : DataFrame A) (pc vc : string)
  (P V : list A) :
  getitem df pc = Some P -> getitem df vc = Some V ->
  any_isnan P || any_isnan V = true -> header_only df = false.
Proof.
  intros HP HV Hnan. destruct (header_only df) eqn:Hh; [| reflexivity].
  rewrite (header_only_getitem df pc P Hh HP) in Hnan.
  rewrite (header_only_getitem df vc V Hh HV) in Hnan. discriminate.
Qed.

Lemma In_columns_getitem (df : DataFrame A) (c : string) :
  In c (columns df) -> exists vals, getitem df c = Some vals.
Proof.
  induction df as [| [n v] rest IH]; simpl; [intros [] |].
  intros [-> | Hin].
  - rewrite String.eqb_refl. now exists v.
  - destruct (String.eqb n c); [now exists v | now apply IH].
Qed.

Lemma columns_shape (d1 d2 : DataFrame A) :
  shape d1 = shape d2 -> columns d1 = columns d2.
Proof.
  intros E. apply (f_equal (map fst)) in E. unfold shape in E.
  rewrite !map_map in E. exact E.
Qed.

(** Tables of the same shape are read with the same dtype. *)
Lemma header_only_shape (d1 d2 : DataFrame A) :
  shape d1 = shape d2 -> header_only d1 = header_only d2.
Proof.
  revert d2. induction d1 as [| [n v] rest IH]; intros [| [n' v'] rest'];
    simpl; try discriminate; [reflexivity |].
  intros E. injection E as _ Hlen Hrest. rewrite (IH rest' Hrest).
  destruct v, v'; simpl in Hlen; try discriminate; reflexivity.
Qed.

(** The missing-value test [np.isnan(P).any() or np.isnan(V).any()] on
    columns of floats, and on the columns of a table without rows. *)
Lemma missing_test_float {X} (df : DataFrame A) (P V : list A)
  (k : bool -> M A X) :
  header_only df = false ->
  bind (bind (isnan_any (dtype_of df) P)
          (fun nanP => if nanP then ret true else isnan_any (dtype_of df) V)) k
  = k (any_isnan P || any_isnan V).
Proof.
  intros Hh. unfold dtype_of, isnan_any. rewrite Hh, bind_ret.
  destruct (any_isnan P); simpl orb; now rewrite bind_ret.
Qed.

Lemma missing_test_object {X} (df : DataFrame A) (P V : list A)
  (k : bool -> M A X) :
  header_only df = true ->
  bind (bind (isnan_any (dtype_of df) P)
          (fun nanP => if nanP then ret true else isnan_any (dtype_of df) V)) k
  = raise TypeError.
Proof. intros Hh. unfold dtype_of, isnan_any. now rewrite Hh. Qed.

End Dtypes.

Section Loading.
Context {A : Type} `{Float64 A}.
Variable env : Env A.

Lemma data_loader_ok (args : Eos.Args) (df : DataFrame A) :
  read_excel env (Eos.filename args) (requested args) = inr df ->
  issubset (requested args) (columns df) = true ->
  Eos.data_loader env args
  = ([ReadExcel (Eos.filename args) (requested args)], inr df).
Proof.
  unfold Eos.data_loader, Eos.read_data, requested. intros -> Hsub.
  simpl. now rewrite Hsub.
Qed.

Lemma data_loader_read_error (args : Eos.Args) (e : string) :
  read_excel env (Eos.filename args) (requested args) = inl e ->
  Eos.data_loader env args
  = ([ReadExcel (Eos.filename args) (requested args);
      Print [Text "Error reading file: "; Text e]], inl Exit).
Proof.
  unfold Eos.data_loader, Eos.read_data, requested. now intros ->.
Qed.

Lemma data_loader_missing (args : Eos.Args) (df : DataFrame A) :
  read_excel env (Eos.filename args) (requested args) = inr df ->
  issubset (requested args) (columns df) = false ->
  Eos.data_loader env args
  = ([ReadExcel (Eos.filename args) (requested args);
      Print (missing_columns_line (Eos.pressure_column args)
               (Eos.volume_column args))], inl Exit).
Proof.
  unfold Eos.data_loader, Eos.read_data, requested, missing_columns_line.
  intros -> Hsub.
  simpl. now rewrite Hsub.
Qed.

(** A run that stops in the loader is the whole run of [main]. *)
Lemma main_stops_in_loader (args : Eos.Args) (t : list (event A)) (s : stop) :
  Eos.data_loader env args = (t, inl s) -> Eos.main env args = (t, inl s).
Proof. unfold Eos.main. now intros ->. Qed.

Lemma main_after_loader (args : Eos.Args) (t : list (event A)) (df : DataFrame A) :
  Eos.data_loader env args = (t, inr df) ->
  Eos.main env args
  = (t ++ trace (Eos.fit_and_plot env args df),
     outcome (Eos.fit_and_plot env args df)).
Proof.
  unfold Eos.main. intros ->. simpl.
  now destruct (Eos.fit_and_plot env args df).
Qed.


(** C6. Against the files on disk, and for a [read_excel] that returns the
    file restricted to the requested columns: the Data Loader of [eos.py]
    returns a table exactly when every requested column is in the file; the
    table then has the requested columns and no other, each with the rows
    it has in the file (so the row count of the source); and when a
    requested column is absent the run of [main] is the read, one error
    line of the loader, and [exit()]: no fitting call is made. *)
Theorem data_loader_succeeds_iff_columns_present
  (fs : string -> option (DataFrame A)) (args : Eos.Args) :
  reads_files fs env ->
  ((exists df, Eos.data_loader env args
               = ([ReadExcel (Eos.filename args) (requested args)], inr df))
   <-> all_present fs args)
  /\ (forall t df, Eos.data_loader env args = (t, inr df) ->
        exists src, fs (Eos.filename args) = Some src
          /\ (forall c, In c (columns df) <-> In c (requested args))
          /\ (forall c, In c (requested args) -> getitem df c = getitem src c))
  /\ (~ all_present fs args ->
        exists line, is_load_error args line
          /\ Eos.main env args
             = ([ReadExcel (Eos.filename args) (requested args); Print line],
                inl Exit)).
Proof.
  intros [Hsound Hcomplete].
  assert (Hpost : forall t df, Eos.data_loader env args = (t, inr df) ->
            exists src, fs (Eos.filename args) = Some src
              /\ (forall c, In c (columns df) <-> In c (requested args))
              /\ (forall c, In c (requested args) -> getitem df c = getitem src c)).
  { intros t df Hrun.
    assert (Hout : outcome (Eos.data_loader env args) = inr df) by now rewrite Hrun.
    apply data_loader_inr in Hout as [Hread Hsub].
    destruct (Hsound _ _ _ Hread) as [src [Hfile ->]].
    exists src. split; [assumption |]. split.
    - intros c. split.
      + intros Hc. now apply columns_usecols in Hc.
      + intros Hc. now apply (proj1 (issubset_In _ _) Hsub).
    - intros c Hc. now apply getitem_usecols. }
  split; [split |split].
  - intros [df Hrun].
    assert (Hout : outcome (Eos.data_loader env args) = inr df) by now rewrite Hrun.
    apply data_loader_inr in Hout as [Hread Hsub].
    destruct (Hsound _ _ _ Hread) as [src [Hfile ->]].
    exists src. split; [assumption |]. intros c Hc.
    apply (proj1 (issubset_In _ _) Hsub), columns_usecols in Hc. tauto.
  - intros [src [Hfile Hall]].
    destruct (Hcomplete _ (requested args) _ Hfile) as [df Hread].
    { now apply issubset_In. }
    exists df. apply data_loader_ok; [assumption |].
    destruct (Hsound _ _ _ Hread) as [src' [Hfile' ->]].
    assert (src' = src) by congruence. subst src'.
    apply issubset_In. intros c Hc. apply columns_usecols. auto.
  - exact Hpost.
  - intros Habsent.
    destruct (read_excel env (Eos.filename args) (requested args)) as [e | df] eqn:Hread.
    + exists [Text "Error reading file: "; Text e]. split; [left; now exists e |].
      now apply main_stops_in_loader, data_loader_read_error.
    + destruct (issubset (requested args) (columns df)) eqn:Hsub.
      * exfalso. apply Habsent.
        destruct (Hsound _ _ _ Hread) as [src [Hfile ->]].
        exists src. split; [assumption |]. intros c Hc.
        apply (proj1 (issubset_In _ _) Hsub), columns_usecols in Hc. tauto.
      * exists (missing_columns_line (Eos.pressure_column args)
                  (Eos.volume_column args)).
        split; [now right |].
        apply main_stops_in_loader. now apply (data_loader_missing args df).
Qed.

End Loading.

Section FailedFits.
Context {A : Type} `{Float64 A}.

Lemma each_failed_fit_split (R : event A -> list (event A) -> Prop)
  (t : list (event A)) :
  each_failed_fit R t <->
  (forall pre ev post, t = pre ++ ev :: post -> is_failed_fit ev = true -> R ev post).
Proof.
  induction t as [| e t IH]; simpl.
  - split; [| trivial]. intros _ [| ? ?] ? ? E; discriminate.
  - split.
    + intros [He Ht] [| e' pre] ev post E Hf; simpl in E; injection E as -> ->.
      * now apply He.
      * now apply (proj1 IH Ht pre ev post).
    + intros Hall. split.
      * intros Hf. now apply (Hall [] e t).
      * apply IH. intros pre ev post -> Hf. now apply (Hall (e :: pre) ev post).
Qed.

Lemma each_failed_fit_impl (R R' : event A -> list (event A) -> Prop)
  (t : list (event A)) :
  (forall ev rest, R ev rest -> R' ev rest) ->
  each_failed_fit R t -> each_failed_fit R' t.
Proof.
  intros HR. induction t as [| e t IH]; simpl; [trivial |].
  intros [He Ht]. split; [intros Hf; now apply HR, He | now apply IH].
Qed.

Lemma each_failed_fit_quiet (R : event A -> list (event A) -> Prop)
  (t t' : list (event A)) :
  Forall (fun e => is_failed_fit e = false) t ->
  each_failed_fit R t' -> each_failed_fit R (t ++ t').
Proof.
  intros Hq Ht'. induction Hq as [| e t He Hq IH]; simpl; [assumption |].
  split; [congruence | assumption].
Qed.

(** A computation that returns has had no failed fitting call. *)
Lemma returns_quiet {X} (R : event A -> list (event A) -> Prop) (m : M A X) (x : X) :
  stops_on_failed_fit R m -> outcome m = inr x ->
  Forall (fun e => is_failed_fit e = false) (trace m).
Proof.
  unfold stops_on_failed_fit. intros Hs Hout. rewrite Hout in Hs.
  induction (trace m) as [| e t IH]; simpl in *; [constructor |].
  destruct Hs as [He Ht]. constructor; [| now apply IH].
  destruct (is_failed_fit e); [| reflexivity].
  destruct (He eq_refl) as [_ E]. discriminate.
Qed.

Lemma stops_quiet {X} (R : event A -> list (event A) -> Prop) (m : M A X) :
  Forall (fun e => is_failed_fit e = false) (trace m) -> stops_on_failed_fit R m.
Proof.
  unfold stops_on_failed_fit. intros Hq.
  induction Hq as [| e t He Hq IH]; simpl; [trivial |].
  split; [congruence | assumption].
Qed.

Lemma stops_bind {X Y} (R : event A -> list (event A) -> Prop)
  (m : M A X) (k : X -> M A Y) :
  stops_on_failed_fit R m ->
  (forall x, outcome m = inr x -> stops_on_failed_fit R (k x)) ->
  stops_on_failed_fit R (bind m k).
Proof.
  intros Hm Hk. unfold stops_on_failed_fit.
  rewrite trace_bind, outcome_bind.
  destruct (outcome m) as [s | x] eqn:E.
  - unfold stops_on_failed_fit in Hm. rewrite E in Hm. revert Hm.
    apply each_failed_fit_impl. intros ev rest [Hr Ho].
    split; [assumption |]. injection Ho as ->. reflexivity.
  - apply each_failed_fit_quiet; [now apply (returns_quiet R m x) |].
    now apply Hk.
Qed.

Lemma stops_for_each (R : event A -> list (event A) -> Prop)
  (l : list nat) (body : nat -> M A unit) :
  (forall i, In i l -> stops_on_failed_fit R (body i)) ->
  stops_on_failed_fit R (for_each l body).
Proof.
  induction l as [| i rest IH]; intros Hbody; simpl.
  - exact I.
  - apply stops_bind; [apply Hbody; now left |].
    intros _ _. apply IH. intros j Hj. apply Hbody. now right.
Qed.

End FailedFits.

(** A part of a run that makes no fitting call. *)
Ltac no_fit := apply stops_quiet; repeat forall_step; reflexivity.

Tactic Notation "stops_bind" "as" ident(x) ident(Hx) :=
  apply stops_bind; [ | intros x Hx ].

Section FitFailure.
Context {A : Type} `{Float64 A}.
Variable env : Env A.

Lemma eos_stops_on_failed_fit (args : Eos.Args) :
  stops_on_failed_fit eos_failure_report (Eos.main env args).
Proof.
  unfold Eos.main. stops_bind as data Hdata.
  { unfold Eos.data_loader, Eos.read_data. no_fit. }
  unfold Eos.fit_and_plot.
  stops_bind as V HV; [no_fit |].
  stops_bind as P HP; [no_fit |].
  stops_bind as v0 Hv0; [no_fit |].
  unfold Eos.call_curve_fit.
  destruct (curve_fit env (Eos.model_fn BirchMurnaghan) V P _ None)
    as [e | [[a b] c]].
  { unfold stops_on_failed_fit. cbn. repeat split; discriminate. }
  destruct (curve_fit env (Eos.model_fn Vinet) V P _ None)
    as [e | [[a' b'] c']];
    unfold stops_on_failed_fit; cbn; repeat split; discriminate.
Qed.

Lemma addition_stops_on_failed_fit (args : EosAddition.Args) :
  stops_on_failed_fit (addition_failure_report env args)
    (EosAddition.main env args).
Proof.
  unfold EosAddition.main.
  stops_bind as ps Hps; [no_fit |]. apply given_inr in Hps.
  stops_bind as vs Hvs; [no_fit |]. apply given_inr in Hvs.
  stops_bind as u Hu; [no_fit |].
  stops_bind as df Hdf; [unfold EosAddition.read_data; no_fit |].
  apply addition_read_data_inr in Hdf.
  stops_bind as u' Hu'; [no_fit |].
  apply stops_for_each. intros i _. unfold EosAddition.main_loop_body.
  stops_bind as pc Hpc; [no_fit |]. apply index_inr in Hpc.
  stops_bind as vc Hvc; [no_fit |]. apply index_inr in Hvc.
  stops_bind as u2 Hu2; [no_fit |].
  stops_bind as P HP; [no_fit |]. apply column_inr in HP.
  stops_bind as V HV; [no_fit |]. apply column_inr in HV.
  stops_bind as missing Hmissing; [no_fit |].
  destruct missing; [no_fit |].
  stops_bind as v0 Hv0; [no_fit |].
  assert (Hreport : forall f p0 mf e,
             addition_failure_report env args
               (CurveFit f V P p0 mf (inl e))
               [Print (addition_fit_error f pc vc e)]).
  { intros. exists ps, vs, df, i, pc, vc. repeat split; assumption. }
  unfold EosAddition.call_curve_fit.
  stops_bind as popt_bm Hbm.
  { destruct (curve_fit env (EosAddition.model_fn BirchMurnaghan) V P _ _)
      as [e | [[a b] c]];
      unfold stops_on_failed_fit; cbn -[addition_failure_report].
    - split; [intros _; split; [apply Hreport | reflexivity] |].
      split; [discriminate | exact I].
    - repeat split; discriminate. }
  stops_bind as popt_vinet Hvinet.
  { destruct (curve_fit env (EosAddition.model_fn Vinet) V P _ _)
      as [e | [[a b] c]];
      unfold stops_on_failed_fit; cbn -[addition_failure_report].
    - split; [intros _; split; [apply Hreport | reflexivity] |].
      split; [discriminate | exact I].
    - repeat split; discriminate. }
  destruct popt_bm as [[a b] c]. unfold EosAddition.color_of. no_fit.
Qed.

(** C5 (amended). When a fitting call fails, the run prints one error
    line and exits: nothing is fitted, plotted or saved after the failure
    and no fit is tried again. The line names the model; in the
    multi-dataset program it also names the pressure and volume columns
    whose data were being fitted, in the single-dataset program it names no
    column. What was printed and saved before the failure stays. *)
Theorem failed_fit_reports_and_exits :
  (forall (args : Eos.Args) pre f xdata ydata p0 maxfev e post,
      trace (Eos.main env args)
      = pre ++ CurveFit f xdata ydata p0 maxfev (inl e) :: post ->
      post = [Print (eos_fit_error f e)]
      /\ outcome (Eos.main env args) = inl Exit)
  /\ (forall (args : EosAddition.Args) pre f xdata ydata p0 maxfev e post,
        trace (EosAddition.main env args)
        = pre ++ CurveFit f xdata ydata p0 maxfev (inl e) :: post ->
        outcome (EosAddition.main env args) = inl Exit
        /\ exists ps vs df i pc vc,
             EosAddition.pressures args = Some ps
             /\ EosAddition.volumes args = Some vs
             /\ read_excel env (EosAddition.filename args) (ps ++ vs) = inr df
             /\ nth_error ps i = Some pc
             /\ nth_error vs i = Some vc
             /\ getitem (interpolate env df) pc = Some ydata
             /\ getitem (interpolate env df) vc = Some xdata
             /\ post = [Print (addition_fit_error f pc vc e)]).
Proof.
  split; intros args pre f xdata ydata p0 maxfev e post Ht.
  - pose proof (eos_stops_on_failed_fit args) as Hs.
    unfold stops_on_failed_fit in Hs.
    apply (proj1 (each_failed_fit_split _ _) Hs _ _ _ Ht eq_refl).
  - pose proof (addition_stops_on_failed_fit args) as Hs.
    unfold stops_on_failed_fit in Hs.
    destruct (proj1 (each_failed_fit_split _ _) Hs _ _ _ Ht eq_refl) as [Hr Ho].
    split; [exact Ho | exact Hr].
Qed.

End FitFailure.

Section AdditionRuns.
Context {A : Type} `{Float64 A}.
Variable env : Env A.

(** The multi-dataset program up to its loop: the table is read with all
    the named columns, interpolated as a whole, and the pairs are taken
    from the interpolated table. *)
Lemma addition_main_reads_then_interpolates
  (args : EosAddition.Args) (ps vs : list string) (df : DataFrame A) :
  EosAddition.pressures args = Some ps ->
  EosAddition.volumes args = Some vs ->
  length ps = length vs ->
  read_excel env (EosAddition.filename args) (ps ++ vs) = inr df ->
  let loop := for_range (length ps)
                (EosAddition.main_loop_body env args ps vs (interpolate env df)) in
  EosAddition.main env args
  = (ReadExcel (EosAddition.filename args) (ps ++ vs) :: Interpolate df
       :: trace loop,
     outcome loop).
Proof.
  intros Hps Hvs Hlen Hread loop. unfold EosAddition.main, EosAddition.read_data.
  rewrite Hps, Hvs. simpl.
  rewrite (proj2 (Nat.eqb_eq _ _) Hlen). simpl.
  rewrite Hread. simpl. fold loop. now destruct loop.
Qed.

(** A pair with a missing value costs one warning line; the body returns
    and the loop goes on with the next pair. *)
Lemma addition_body_skips (args : EosAddition.Args) (ps vs : list string)
  (data : DataFrame A) (i : nat) (pc vc : string) (P V : list A) :
  nth_error ps i = Some pc ->
  nth_error vs i = Some vc ->
  getitem data pc = Some P ->
  getitem data vc = Some V ->
  any_isnan P || any_isnan V = true ->
  EosAddition.main_loop_body env args ps vs data i
  = ([Print (missing_values_line pc vc)], inr tt).
Proof.
  intros Hpc Hvc HP HV Hnan. unfold EosAddition.main_loop_body, index, column.
  rewrite Hpc, Hvc. simpl.
  assert (Hsub : issubset [pc; vc] (columns data) = true).
  { apply issubset_In. intros c [<- | [<- | []]]; eapply getitem_In; eassumption. }
  rewrite Hsub, HP, HV. unfold when, negb. rewrite !bind_ret.
  rewrite missing_test_float, Hnan; [reflexivity |].
  now apply (missing_value_not_header_only data pc vc P V).
Qed.

(** A pair of columns of a table without rows: the missing-value test
    raises before anything is printed, and [V[0]] is not reached. *)
Lemma addition_body_no_rows (args : EosAddition.Args) (ps vs : list string)
  (data : DataFrame A) (i : nat) (pc vc : string) :
  nth_error ps i = Some pc ->
  nth_error vs i = Some vc ->
  In pc (columns data) ->
  In vc (columns data) ->
  header_only data = true ->
  EosAddition.main_loop_body env args ps vs data i
  = ([], inl (Uncaught TypeError)).
Proof.
  intros Hpc Hvc HP HV Hh. unfold EosAddition.main_loop_body, index, column.
  rewrite Hpc, Hvc, !bind_ret.
  assert (Hsub : issubset [pc; vc] (columns data) = true).
  { apply issubset_In. intros c [<- | [<- | []]]; assumption. }
  rewrite Hsub. unfold when, negb. rewrite bind_ret.
  destruct (In_columns_getitem data pc HP) as [P ->].
  destruct (In_columns_getitem data vc HV) as [V ->].
  rewrite !bind_ret. now apply missing_test_object.
Qed.

End AdditionRuns.

Section EosRuns.
Context {A : Type} `{Float64 A}.
Variable env : Env A.

(** After a successful load of a table with at least one row, the first
    thing the single-dataset program does is the Birch-Murnaghan fit of the
    two columns as loaded. *)
Lemma eos_fits_as_loaded (args : Eos.Args) (df : DataFrame A)
  (P rest : list A) (v0 : A) :
  read_excel env (Eos.filename args) (requested args) = inr df ->
  getitem df (Eos.pressure_column args) = Some P ->
  getitem df (Eos.volume_column args) = Some (v0 :: rest) ->
  exists answer t,
    trace (Eos.main env args)
    = ReadExcel (Eos.filename args) (requested args)
      :: CurveFit BirchMurnaghan (v0 :: rest) P [v0; of_int 1; of_int 1] None answer
      :: t.
Proof.
  intros Hread HP HV.
  assert (Hsub : issubset (requested args) (columns df) = true).
  { apply issubset_In. intros c [<- | [<- | []]]; eapply getitem_In; eassumption. }
  rewrite (main_after_loader env args _ df (data_loader_ok env args df Hread Hsub)).
  unfold Eos.fit_and_plot, column, index, Eos.call_curve_fit.
  rewrite HV, HP. simpl.
  destruct (curve_fit env Eos.birch_murnaghan (v0 :: rest) P
              [v0; of_int 1; of_int 1] None) as [e | [[a b] c]].
  { simpl. eexists. eexists. reflexivity. }
  destruct (curve_fit env Eos.vinet (v0 :: rest) P
              [v0; of_int 1; of_int 1] None) as [e | [[a' b'] c']];
    simpl; eexists; eexists; reflexivity.
Qed.

Lemma eos_no_rows (args : Eos.Args) (df : DataFrame A) (P : list A) :
  read_excel env (Eos.filename args) (requested args) = inr df ->
  getitem df (Eos.pressure_column args) = Some P ->
  getitem df (Eos.volume_column args) = Some [] ->
  Eos.main env args
  = ([ReadExcel (Eos.filename args) (requested args)], inl (Uncaught IndexError)).
Proof.
  intros Hread HP HV.
  assert (Hsub : issubset (requested args) (columns df) = true).
  { apply issubset_In. intros c [<- | [<- | []]]; eapply getitem_In; eassumption. }
  rewrite (main_after_loader env args _ df (data_loader_ok env args df Hread Hsub)).
  unfold Eos.fit_and_plot, column, index. rewrite HV, HP. reflexivity.
Qed.

End EosRuns.

Section AdditionFits.
Context {A : Type} `{Float64 A}.
Variable env : Env A.


End AdditionFits.

(* ================================================================== *)
(** * The claims about the two programs *)

Section Claims.
Context {A : Type} `{Float64 A}.
Variable env : Env A.

(** C2 (amended). The multi-dataset program interpolates the whole table
    right after reading it and takes every column pair from the
    interpolated table; a pair that still has a missing value costs one
    warning line, no fit, and the loop goes on with the next pair. The
    single-dataset program neither interpolates nor warns: it fits the
    columns as loaded, whatever they contain. *)
Theorem missing_values_handling :
  (forall args : Eos.Args,
      Forall (fun e => is_interpolate e = false /\ is_warning e = false)
        (trace (Eos.main env args)))
  /\ (forall (args : Eos.Args) df P v0 rest,
        read_excel env (Eos.filename args) (requested args) = inr df ->
        getitem df (Eos.pressure_column args) = Some P ->
        getitem df (Eos.volume_column args) = Some (v0 :: rest) ->
        exists answer t,
          trace (Eos.main env args)
          = ReadExcel (Eos.filename args) (requested args)
            :: CurveFit BirchMurnaghan (v0 :: rest) P
                 [v0; of_int 1; of_int 1] None answer
            :: t)
  /\ (forall (args : EosAddition.Args) ps vs df,
        EosAddition.pressures args = Some ps ->
        EosAddition.volumes args = Some vs ->
        length ps = length vs ->
        read_excel env (EosAddition.filename args) (ps ++ vs) = inr df ->
        let loop := for_range (length ps)
                      (EosAddition.main_loop_body env args ps vs
                         (interpolate env df)) in
        EosAddition.main env args
        = (ReadExcel (EosAddition.filename args) (ps ++ vs)
             :: Interpolate df :: trace loop,
           outcome loop))
  /\ (forall (args : EosAddition.Args) ps vs data i later pc vc P V,
        nth_error ps i = Some pc ->
        nth_error vs i = Some vc ->
        getitem data pc = Some P ->
        getitem data vc = Some V ->
        any_isnan P || any_isnan V = true ->
        let body := EosAddition.main_loop_body env args ps vs data in
        for_each (i :: later) body
        = (Print (missing_values_line pc vc) :: trace (for_each later body),
           outcome (for_each later body))).
Proof.
  repeat split.
  - intros args.
    unfold Eos.main, Eos.data_loader, Eos.fit_and_plot, Eos.read_data,
      Eos.call_curve_fit.
    repeat forall_step; split; reflexivity.
  - intros args df P v0 rest. apply eos_fits_as_loaded.
  - intros args ps vs df. apply addition_main_reads_then_interpolates.
  - intros args ps vs data i later pc vc P V Hpc Hvc HP HV Hnan body.
    simpl. unfold body at 1.
    rewrite (addition_body_skips env args ps vs data i pc vc P V) by assumption.
    simpl. now destruct (for_each later body).
Qed.

(** C7. When [--pressures] and [--volumes] are lists of different
    lengths, the multi-dataset program prints its error line and exits;
    the run consists of that one line: nothing is read, nothing fitted. *)
Theorem mismatched_lists_stop_before_reading
  (args : EosAddition.Args) (ps vs : list string) :
  EosAddition.pressures args = Some ps ->
  EosAddition.volumes args = Some vs ->
  length ps <> length vs ->
  EosAddition.main env args
  = ([Print [Text "Error: Number of pressure columns and volume columns must be equal."]],
     inl Exit).
Proof.
  intros Hps Hvs Hlen. unfold EosAddition.main. rewrite Hps, Hvs. simpl.
  now rewrite (proj2 (Nat.eqb_neq _ _) Hlen).
Qed.

(** C8 (amended). Every fitting call of the single-dataset program leaves
    [maxfev] at the optimizer's default. In the multi-dataset program the
    Birch-Murnaghan calls pass [maxfev = 5000] and the Vinet calls leave it
    at the default. *)
Theorem fitting_budgets :
  (forall args : Eos.Args, Forall budget_single (trace (Eos.main env args)))
  /\ (forall args : EosAddition.Args,
        Forall budget_addition (trace (EosAddition.main env args))).
Proof. split; [apply budget_of_eos | apply budget_of_addition]. Qed.


(** C10 (amended). A table with the requested columns and no row: both
    programs stop on an uncaught exception, having printed nothing and made
    no fitting call. The single-dataset program raises [IndexError] at
    [V[0]]. The multi-dataset program, after reading the table and
    interpolating it (which keeps its shape), raises [TypeError] at its
    missing-value test, because the columns of a table without rows are of
    dtype object; it does not reach [V[0]]. *)
Theorem no_rows_stop_uncaught :
  (forall (args : Eos.Args) df P,
      read_excel env (Eos.filename args) (requested args) = inr df ->
      getitem df (Eos.pressure_column args) = Some P ->
      getitem df (Eos.volume_column args) = Some [] ->
      Eos.main env args
      = ([ReadExcel (Eos.filename args) (requested args)],
         inl (Uncaught IndexError)))
  /\ (forall (args : EosAddition.Args) pc ps vc vs df,
        interpolate_keeps_shape env ->
        EosAddition.pressures args = Some (pc :: ps) ->
        EosAddition.volumes args = Some (vc :: vs) ->
        length ps = length vs ->
        read_excel env (EosAddition.filename args) ((pc :: ps) ++ vc :: vs)
        = inr df ->
        header_only df = true ->
        In pc (columns df) ->
        In vc (columns df) ->
        EosAddition.main env args
        = ([ReadExcel (EosAddition.filename args) ((pc :: ps) ++ vc :: vs);
            Interpolate df],
           inl (Uncaught TypeError))).
Proof.
  split.
  - intros args df P. apply eos_no_rows.
  - intros args pc ps vc vs df Hshape Hps Hvs Hlen Hread Hh HP HV.
    rewrite (addition_main_reads_then_interpolates env args (pc :: ps) (vc :: vs)
               df Hps Hvs (f_equal S Hlen) Hread).
    unfold for_range. simpl seq. cbn [for_each].
    rewrite (addition_body_no_rows env args (pc :: ps) (vc :: vs)
               (interpolate env df) 0 pc vc); try reflexivity.
    + now rewrite (columns_shape _ _ (Hshape df)).
    + now rewrite (columns_shape _ _ (Hshape df)).
    + now rewrite (header_only_shape _ _ (Hshape df)).
Qed.

End Claims.

(* ================================================================== *)
(** * Concrete runs *)

Section SampleRuns.
Import Sample.
Local Open Scope string_scope.

Lemma sample_reads_files : reads_files files env.
Proof.
  split; simpl; unfold pandas_read_excel.
  - intros fn cols df. destruct (files fn) as [src |]; [| discriminate].
    destruct (issubset cols (columns src)); [| discriminate].
    intros E. injection E as <-. now exists src.
  - intros fn cols src -> ->. now eexists.
Qed.

Lemma sample_keeps_shape : interpolate_keeps_shape env.
Proof. intros df. reflexivity. Qed.

Lemma table_all_present : all_present files (eos_args "data.xlsx").
Proof.
  exists table. split; [reflexivity |].
  intros c [<- | [<- | []]]; simpl; auto.
Qed.

Lemma no_file_nothing_present : ~ all_present files (eos_args "nofile.xlsx").
Proof. intros [src [Hfile _]]. discriminate. Qed.

Lemma data_loader_succeeds_iff_columns_present_witness :
  reads_files files env
  /\ (exists df,
        Eos.data_loader env (eos_args "data.xlsx")
        = ([ReadExcel "data.xlsx" ["P_GPa"; "V_A3"]], inr df))
  /\ (exists line,
        is_load_error (eos_args "nofile.xlsx") line
        /\ Eos.main env (eos_args "nofile.xlsx")
           = ([ReadExcel "nofile.xlsx" ["P_GPa"; "V_A3"]; Print line], inl Exit)).
Proof.
  split; [exact sample_reads_files |]. split.
  - apply (proj2 (proj1 (data_loader_succeeds_iff_columns_present env files
                           (eos_args "data.xlsx") sample_reads_files))).
    exact table_all_present.
  - apply (proj2 (proj2 (data_loader_succeeds_iff_columns_present env files
                           (eos_args "nofile.xlsx") sample_reads_files))).
    exact no_file_nothing_present.
Defined.

Lemma mismatched_lists_stop_before_reading_witness :
  length ["P1"; "P2"] <> length ["V1"]
  /\ EosAddition.main env (addition_args "two.xlsx" ["P1"; "P2"] ["V1"])
     = ([Print [Text "Error: Number of pressure columns and volume columns must be equal."]],
        inl Exit).
Proof.
  split; [discriminate |].
  apply (mismatched_lists_stop_before_reading env
           (addition_args "two.xlsx" ["P1"; "P2"] ["V1"]) ["P1"; "P2"] ["V1"]);
    [reflexivity | reflexivity | discriminate].
Defined.

Lemma no_rows_stop_uncaught_witness :
  Eos.main env (eos_args "empty.xlsx")
  = ([ReadExcel "empty.xlsx" ["P_GPa"; "V_A3"]], inl (Uncaught IndexError))
  /\ EosAddition.main env (addition_args "empty.xlsx" ["P_GPa"] ["V_A3"])
     = ([ReadExcel "empty.xlsx" ["P_GPa"; "V_A3"]; Interpolate no_rows],
        inl (Uncaught TypeError)).
Proof.
  split.
  - apply (proj1 (no_rows_stop_uncaught env) (eos_args "empty.xlsx") no_rows []);
      reflexivity.
  - apply (proj2 (no_rows_stop_uncaught env)
             (addition_args "empty.xlsx" ["P_GPa"] ["V_A3"])
             "P_GPa" [] "V_A3" [] no_rows);
      [exact sample_keeps_shape | reflexivity | reflexivity | reflexivity
      | reflexivity | reflexivity | now left | now right; left].
Defined.

Lemma missing_values_handling_witness :
  (exists answer t,
      trace eos_on_gaps
      = ReadExcel "gaps.xlsx" ["P_GPa"; "V_A3"]
        :: CurveFit BirchMurnaghan
             [NaN; Fin (98 / 10); Fin (96 / 10); Fin (92 / 10)] pressures_GPa
             [NaN; Fin 1; Fin 1] None answer
        :: t)
  /\ (let loop := for_range 1
                    (EosAddition.main_loop_body env
                       (addition_args "gaps.xlsx" ["P_GPa"] ["V_A3"])
                       ["P_GPa"] ["V_A3"] gaps) in
      addition_on_gaps
      = (ReadExcel "gaps.xlsx" ["P_GPa"; "V_A3"] :: Interpolate gaps :: trace loop,
         outcome loop))
  /\ for_each [0]
       (EosAddition.main_loop_body env
          (addition_args "gaps.xlsx" ["P_GPa"] ["V_A3"]) ["P_GPa"] ["V_A3"] gaps)
     = ([Print (missing_values_line "P_GPa" "V_A3")], inr tt).
Proof.
  pose proof (missing_values_handling env) as [_ [Hfits [Hreads Hskips]]].
  split; [| split].
  - exact (Hfits (eos_args "gaps.xlsx") gaps pressures_GPa NaN
             [Fin (98 / 10); Fin (96 / 10); Fin (92 / 10)]
             eq_refl eq_refl eq_refl).
  - exact (Hreads (addition_args "gaps.xlsx" ["P_GPa"] ["V_A3"])
             ["P_GPa"] ["V_A3"] gaps eq_refl eq_refl eq_refl eq_refl).
  - exact (Hskips (addition_args "gaps.xlsx" ["P_GPa"] ["V_A3"])
             ["P_GPa"] ["V_A3"] gaps 0 [] "P_GPa" "V_A3" pressures_GPa
             [NaN; Fin (98 / 10); Fin (96 / 10); Fin (92 / 10)]
             eq_refl eq_refl eq_refl eq_refl eq_refl).
Defined.


Lemma small_cell_converges f rest ydata p0 maxfev :
  fit_small_cells_only f (Fin 10 :: rest) ydata p0 maxfev = inr popt.
Proof.
  unfold fit_small_cells_only. destruct (Rlt_dec 10 15); [reflexivity | lra].
Qed.

Lemma large_cell_fails f rest ydata p0 maxfev :
  fit_small_cells_only f (Fin 20 :: rest) ydata p0 maxfev = inl no_convergence.
Proof.
  unfold fit_small_cells_only. destruct (Rlt_dec 20 15); [lra | reflexivity].
Qed.

(** The run on two datasets of which the second does not converge: the
    figure with the first dataset is saved, then the Birch-Murnaghan fit of
    the second fails, its error line is printed and the run exits. *)
Lemma addition_second_failing_run :
  existsb is_savefig (trace addition_second_failing) = true
  /\ existsb is_failed_fit (trace addition_second_failing) = true
  /\ last (trace addition_second_failing) Show
     = Print (addition_fit_error BirchMurnaghan "P2" "V2" no_convergence)
  /\ reports_columns "P2" "V2" (trace addition_second_failing) = true
  /\ outcome addition_second_failing = inl Exit.
Proof.
  unfold addition_second_failing.
  rewrite (addition_main_reads_then_interpolates env_second_fails
             (addition_args "two.xlsx" ["P1"; "P2"] ["V1"; "V2"])
             ["P1"; "P2"] ["V1"; "V2"] two_sets eq_refl eq_refl eq_refl eq_refl).
  unfold for_range. cbn [length seq for_each].
  unfold EosAddition.main_loop_body, EosAddition.call_curve_fit.
  cbn [env_second_fails curve_fit interpolate].
  cbn -[fit_small_cells_only EosAddition.birch_murnaghan EosAddition.vinet Rdiv].
  rewrite !small_cell_converges, !large_cell_fails.
  repeat split; reflexivity.
Qed.

(** The same run, cut at the failing call. *)
Lemma addition_second_failing_trace :
  trace addition_second_failing
  = (firstn 14 (trace addition_second_failing)
     ++ CurveFit BirchMurnaghan [Fin 20; Fin (39 / 2); Fin 19; Fin 18]
          pressures_GPa [Fin 20; Fin 160; Fin 5] (Some 5000%Z)
          (inl no_convergence)
     :: [Print (addition_fit_error BirchMurnaghan "P2" "V2" no_convergence)])%list.
Proof.
  unfold addition_second_failing.
  rewrite (addition_main_reads_then_interpolates env_second_fails
             (addition_args "two.xlsx" ["P1"; "P2"] ["V1"; "V2"])
             ["P1"; "P2"] ["V1"; "V2"] two_sets eq_refl eq_refl eq_refl eq_refl).
  unfold for_range. cbn [length seq for_each].
  unfold EosAddition.main_loop_body, EosAddition.call_curve_fit.
  cbn [env_second_fails curve_fit interpolate].
  cbn -[fit_small_cells_only EosAddition.birch_murnaghan EosAddition.vinet Rdiv].
  rewrite !small_cell_converges, !large_cell_fails.
  reflexivity.
Qed.

Lemma failed_fit_reports_and_exits_witness :
  (trace eos_fit_failing
   = ([ReadExcel "data.xlsx" ["P_GPa"; "V_A3"]]
      ++ CurveFit BirchMurnaghan
           [Fin 10; Fin (98 / 10); Fin (96 / 10); Fin (92 / 10)] pressures_GPa
           [Fin 10; Fin 1; Fin 1] None (inl no_convergence)
      :: [Print (eos_fit_error BirchMurnaghan no_convergence)])%list
   /\ outcome eos_fit_failing = inl Exit)
  /\ outcome addition_second_failing = inl Exit.
Proof.
  pose proof (failed_fit_reports_and_exits env_fit_fails) as [Heos _].
  pose proof (failed_fit_reports_and_exits env_second_fails) as [_ Haddition].
  split; [split; [reflexivity |] |].
  - exact (proj2 (Heos (eos_args "data.xlsx")
                    [ReadExcel "data.xlsx" ["P_GPa"; "V_A3"]]
                    BirchMurnaghan
                    [Fin 10; Fin (98 / 10); Fin (96 / 10); Fin (92 / 10)]
                    pressures_GPa [Fin 10; Fin 1; Fin 1] None no_convergence
                    [Print (eos_fit_error BirchMurnaghan no_convergence)]
                    eq_refl)).
  - exact (proj1 (Haddition (addition_args "two.xlsx" ["P1"; "P2"] ["V1"; "V2"])
                    (firstn 14 (trace addition_second_failing))
                    BirchMurnaghan [Fin 20; Fin (39 / 2); Fin 19; Fin 18]
                    pressures_GPa [Fin 20; Fin 160; Fin 5] (Some 5000%Z)
                    no_convergence
                    [Print (addition_fit_error BirchMurnaghan "P2" "V2"
                              no_convergence)]
                    addition_second_failing_trace)).
Defined.

(** C2, as stated, fails on the spreadsheet with a blank first volume:
    the program that does not interpolate ([eos.py]) prints no warning and
    does call the fitting engine on the column with the missing value. *)
Lemma missing_values_counterexample :
  ~ ((interpolates (trace addition_on_gaps)
      /\ ~ interpolates (trace eos_on_gaps)
      /\ skips_with_warning (trace eos_on_gaps))
     \/ (interpolates (trace eos_on_gaps)
         /\ ~ interpolates (trace addition_on_gaps)
         /\ skips_with_warning (trace addition_on_gaps))).
Proof.
  assert (Hfit : existsb is_fit (trace eos_on_gaps) = true) by reflexivity.
  assert (Hno : existsb is_interpolate (trace eos_on_gaps) = false) by reflexivity.
  unfold interpolates, skips_with_warning.
  intros [[_ [_ [_ Hskip]]] | [Hint _]]; congruence.
Qed.

(** C5, as stated, fails twice. In [eos.py] the line printed for a failed
    fit mentions neither column. In [eos_addition.py] the figure with the
    first dataset has been saved when the fit of the second fails. *)
Lemma failed_fit_counterexample :
  (existsb is_failed_fit (trace eos_fit_failing) = true
   /\ reports_columns "P_GPa" "V_A3" (trace eos_fit_failing) = false)
  /\ (existsb is_failed_fit (trace addition_second_failing) = true
      /\ existsb is_savefig (trace addition_second_failing) = true).
Proof.
  split; [split; reflexivity |].
  destruct addition_second_failing_run as [Hsaved [Hfailed _]]. now split.
Qed.

(** C10, as stated, fails on a sheet with the header row and no data row:
    the multi-dataset program does not die on an [IndexError] at [V[0]];
    it dies on a [TypeError] at the missing-value test before it. *)
Lemma no_rows_counterexample :
  outcome addition_on_no_rows = inl (Uncaught TypeError)
  /\ ~ (outcome eos_on_no_rows = inl (Uncaught IndexError)
        /\ outcome addition_on_no_rows = inl (Uncaught IndexError)).
Proof.
  assert (E : outcome addition_on_no_rows = inl (Uncaught TypeError))
    by reflexivity.
  split; [exact E |]. intros [_ E']. congruence.
Qed.

(** C8, as stated, fails on the sample spreadsheet: neither program uses
    one budget for all its fitting calls together with the other using the
    other budget, because [eos_addition.py] passes [maxfev=5000] to its
    Birch-Murnaghan call and nothing to its Vinet call. *)
Lemma fitting_budgets_counterexample :
  ~ ((every_budget_is (Some 5000%Z) (trace addition_on_table) = true
      /\ every_budget_is None (trace eos_on_table) = true)
     \/ (every_budget_is (Some 5000%Z) (trace eos_on_table) = true
         /\ every_budget_is None (trace addition_on_table) = true)).
Proof.
  assert (H1 : every_budget_is (Some 5000%Z) (trace addition_on_table) = false)
    by reflexivity.
  assert (H2 : every_budget_is None (trace addition_on_table) = false)
    by reflexivity.
  intros [[Ha _] | [_ Ha]]; congruence.
Qed.

End SampleRuns.

(* ================================================================== *)
(** * Further properties of the model functions *)

Section Ratios.
Local Open Scope R_scope.


Lemma fdiv_by_zero (x : float64) : fdiv x (Fin 0) = NaN.
Proof.
  destruct x as [| a]; simpl; [reflexivity |].
  destruct (Req_dec_T 0 0) as [_ | Hn]; [reflexivity | now contradiction Hn].
Qed.

(** None of the exponents 7/3, 5/3, 2/3, 1/3 is an integer. *)
Lemma thirds_not_integer (p : Z) (n : Z) :
  (p mod 3 <> 0)%Z -> IZR p / 3 <> IZR n.
Proof.
  intros Hp E.
  assert (E3 : IZR p = IZR (3 * n)) by (rewrite mult_IZR, <- E; field).
  apply eq_IZR in E3. subst p. apply Hp.
  rewrite Z.mul_comm. apply Z.mod_mul. discriminate.
Qed.

Lemma fpow_negative_base (b : R) (p : Z) :
  b < 0 -> (p mod 3 <> 0)%Z -> fpow (Fin b) (Fin (IZR p / 3)) = NaN.
Proof.
  intros Hb Hp. unfold fpow.
  destruct (Req_dec_T (IZR p / 3) 0) as [E | _].
  { exfalso. apply (thirds_not_integer p 0 Hp). exact E. }
  destruct (Rlt_dec 0 b); [lra |].
  destruct (Req_dec_T b 0); [lra |].
  destruct (Req_dec_T (IZR p / 3) (IZR (Int_part (IZR p / 3)))) as [E | _];
    [| reflexivity].
  exfalso. exact (thirds_not_integer p _ Hp E).
Qed.

Lemma fpow_nan_base (p : Z) :
  (p mod 3 <> 0)%Z -> fpow NaN (Fin (IZR p / 3)) = NaN.
Proof.
  intros Hp. unfold fpow.
  destruct (Req_dec_T (IZR p / 3) 0) as [E | _]; [| reflexivity].
  exfalso. exact (thirds_not_integer p 0 Hp E).
Qed.

Lemma fpow_zero_base (p : Z) :
  (0 < p)%Z -> fpow (Fin 0) (Fin (IZR p / 3)) = Fin 0.
Proof.
  intros Hp. apply IZR_lt in Hp. unfold fpow.
  destruct (Req_dec_T (IZR p / 3) 0); [lra |].
  destruct (Rlt_dec 0 0); [lra |].
  destruct (Req_dec_T 0 0) as [_ | Hn]; [| now contradiction Hn].
  destruct (Rlt_dec 0 (IZR p / 3)); [reflexivity | lra].
Qed.

Lemma mul_nan_r (x : float64) : mul x NaN = NaN.
Proof. now destruct x. Qed.

Lemma sub_nan_l (x : float64) : sub NaN x = NaN.
Proof. reflexivity. Qed.

End Ratios.

Section ModelEdges.
Local Open Scope R_scope.



(** X3. Birch-Murnaghan has no value at volume zero, and neither model
    function has one when [V] and [V0] have opposite signs (a negative
    base under a fractional power): the result is NaN whatever the other
    arguments are, in both programs. *)
Theorem model_functions_nan_outside_domain (V V0 : R) (x K0 K0_prime : float64) :
  (Eos.birch_murnaghan (Fin 0) x K0 K0_prime = NaN
   /\ EosAddition.birch_murnaghan (Fin 0) x K0 K0_prime = NaN)
  /\ (V * V0 < 0 ->
      Eos.birch_murnaghan (Fin V) (Fin V0) K0 K0_prime = NaN
      /\ Eos.vinet (Fin V) (Fin V0) K0 K0_prime = NaN
      /\ EosAddition.birch_murnaghan (Fin V) (Fin V0) K0 K0_prime = NaN
      /\ EosAddition.vinet (Fin V) (Fin V0) K0 K0_prime = NaN).
Proof.
  assert (H7 : div (of_int 7) (of_int 3) = Fin (IZR 7 / 3)) by (apply ratio; lra).
  assert (H1 : div (of_int 1) (of_int 3) = Fin (IZR 1 / 3)) by (apply ratio; lra).
  split.
  - unfold Eos.birch_murnaghan, EosAddition.birch_murnaghan.
    change (div x (Fin 0)) with (fdiv x (Fin 0)).
    rewrite fdiv_by_zero, H7.
    change (pow NaN (Fin (IZR 7 / 3))) with (fpow NaN (Fin (IZR 7 / 3))).
    rewrite fpow_nan_base by discriminate.
    rewrite sub_nan_l, !mul_nan_r. split; reflexivity.
  - intros Hsign.
    assert (HV : V <> 0) by nra. assert (HV0 : V0 <> 0) by nra.
    assert (Hr : V0 / V < 0).
    { replace (V0 / V) with (V * V0 * (/ V * / V)) by (field; assumption).
      assert (0 < / V * / V) by (apply Rsqr_pos_lt, Rinv_neq_0_compat; assumption).
      nra. }
    assert (Hr' : V / V0 < 0).
    { replace (V / V0) with (V * V0 * (/ V0 * / V0)) by (field; assumption).
      assert (0 < / V0 * / V0) by (apply Rsqr_pos_lt, Rinv_neq_0_compat; assumption).
      nra. }
    unfold Eos.birch_murnaghan, Eos.vinet, EosAddition.birch_murnaghan,
      EosAddition.vinet.
    change (div (Fin V0) (Fin V)) with (fdiv (Fin V0) (Fin V)).
    change (div (Fin V) (Fin V0)) with (fdiv (Fin V) (Fin V0)).
    rewrite !fdiv_fin by assumption. rewrite H7, H1.
    change (pow (Fin (V0 / V)) (Fin (IZR 7 / 3)))
      with (fpow (Fin (V0 / V)) (Fin (IZR 7 / 3))).
    change (pow (Fin (V / V0)) (Fin (IZR 1 / 3)))
      with (fpow (Fin (V / V0)) (Fin (IZR 1 / 3))).
    rewrite !fpow_negative_base by (assumption || discriminate).
    cbv zeta. rewrite sub_nan_l, !mul_nan_r.
    repeat split; reflexivity.
Qed.

Lemma model_functions_nan_outside_domain_witness :
  -9 * 10 < 0
  /\ Eos.vinet (Fin (-9)) (Fin 10) (Fin 160) (Fin 4) = NaN.
Proof.
  split; [lra |].
  apply (proj2 (model_functions_nan_outside_domain (-9) 10 NaN (Fin 160) (Fin 4))).
  lra.
Defined.

(** X4. With reference volume [V0 = 0], Birch-Murnaghan is zero, not NaN,
    at every volume [V <> 0], whatever [K0] and [K0_prime] are: the ratio
    [V0 / V] is 0 and every power in the first bracket is a positive power
    of 0. This holds in both programs. *)
Theorem birch_murnaghan_zero_reference_volume (V K0 K0_prime : R) :
  V <> 0 ->
  Eos.birch_murnaghan (Fin V) (Fin 0) (Fin K0) (Fin K0_prime) = Fin 0
  /\ EosAddition.birch_murnaghan (Fin V) (Fin 0) (Fin K0) (Fin K0_prime) = Fin 0.
Proof.
  intros Hne.
  assert (Hzero : forall k,
             Eos.birch_murnaghan (Fin V) (Fin 0) (Fin k) (Fin K0_prime) = Fin 0).
  { intros k. unfold Eos.birch_murnaghan.
    change (div (Fin 0) (Fin V)) with (fdiv (Fin 0) (Fin V)).
    rewrite fdiv_fin by assumption.
    replace (0 / V) with 0 by (field; assumption).
    rewrite !ratio by lra.
    change (@pow float64 _) with fpow.
    rewrite (fpow_zero_base 7), (fpow_zero_base 5), (fpow_zero_base 2) by lia.
    simpl. f_equal. ring. }
  split; [apply Hzero |].
  rewrite birch_murnaghan_at_160.
  change (@of_int float64 _ 160) with (Fin 160). apply Hzero.
Qed.

Lemma birch_murnaghan_zero_reference_volume_witness :
  10 <> 0
  /\ Eos.birch_murnaghan (Fin 10) (Fin 0) (Fin 160) (Fin 4) = Fin 0
  /\ EosAddition.birch_murnaghan (Fin 10) (Fin 0) (Fin 160) (Fin 4) = Fin 0.
Proof.
  assert (H10 : 10 <> 0) by lra.
  split; [exact H10 |].
  exact (birch_murnaghan_zero_reference_volume 10 160 4 H10).
Defined.

End ModelEdges.

Section BulkModulus.
Local Open Scope R_scope.

Lemma D_scal (c : R) (f : R -> R) (x l : R) :
  derivable_pt_lim f x l -> derivable_pt_lim (fun v => c * f v) x (c * l).
Proof. intros Hf. exact (derivable_pt_lim_scal f c x l Hf). Qed.

Lemma D_minus (f g : R -> R) (x l1 l2 : R) :
  derivable_pt_lim f x l1 -> derivable_pt_lim g x l2 ->
  derivable_pt_lim (fun v => f v - g v) x (l1 - l2).
Proof. intros Hf Hg. exact (derivable_pt_lim_minus f g x l1 l2 Hf Hg). Qed.

Lemma D_mult (f g : R -> R) (x l1 l2 : R) :
  derivable_pt_lim f x l1 -> derivable_pt_lim g x l2 ->
  derivable_pt_lim (fun v => f v * g v) x (l1 * g x + f x * l2).
Proof. intros Hf Hg. exact (derivable_pt_lim_mult f g x l1 l2 Hf Hg). Qed.

Lemma D_shift (a : R) (f : R -> R) (x l : R) :
  derivable_pt_lim f x l -> derivable_pt_lim (fun v => a + f v) x l.
Proof.
  intros Hf. replace l with (0 + l) by ring.
  exact (derivable_pt_lim_plus (fct_cte a) f x 0 l
           (derivable_pt_lim_const a x) Hf).
Qed.

Lemma D_one_minus (f : R -> R) (x l : R) :
  derivable_pt_lim f x l -> derivable_pt_lim (fun v => 1 - f v) x (- l).
Proof.
  intros Hf. replace (- l) with (0 - l) by ring.
  exact (derivable_pt_lim_minus (fct_cte 1) f x 0 l
           (derivable_pt_lim_const 1 x) Hf).
Qed.

Lemma D_minus_one (f : R -> R) (x l : R) :
  derivable_pt_lim f x l -> derivable_pt_lim (fun v => f v - 1) x l.
Proof.
  intros Hf. replace l with (l - 0) by ring.
  exact (derivable_pt_lim_minus f (fct_cte 1) x l 0 Hf
           (derivable_pt_lim_const 1 x)).
Qed.

(** The ratio [V0 / V] and its powers, differentiated in [V] at [V0]. *)
Lemma D_ratio (V0 : R) :
  0 < V0 -> derivable_pt_lim (fun V => V0 / V) V0 (- / V0).
Proof.
  intros HV0.
  replace (- / V0) with ((0 * id V0 - 1 * fct_cte V0 V0) / Rsqr (id V0))
    by (unfold id, fct_cte, Rsqr; field; lra).
  apply (derivable_pt_lim_div (fct_cte V0) id V0 0 1).
  - apply derivable_pt_lim_const.
  - apply derivable_pt_lim_id.
  - unfold id. lra.
Qed.

Lemma D_ratio_power (V0 y : R) :
  0 < V0 -> derivable_pt_lim (fun V => Rpower (V0 / V) y) V0 (- y / V0).
Proof.
  intros HV0.
  replace (- y / V0) with (y * Rpower (V0 / V0) (y - 1) * (- / V0))
    by (rewrite Rdiv_diag, Rpower_one by lra; field; lra).
  apply (derivable_pt_lim_comp (fun V => V0 / V) (fun x => Rpower x y)).
  - now apply D_ratio.
  - apply derivable_pt_lim_power. rewrite Rdiv_diag; lra.
Qed.

Lemma D_inverse_ratio_power (V0 y : R) :
  0 < V0 -> derivable_pt_lim (fun V => Rpower (V / V0) y) V0 (y / V0).
Proof.
  intros HV0.
  replace (y / V0) with (y * Rpower (V0 / V0) (y - 1) * (/ V0 * 1))
    by (rewrite Rdiv_diag, Rpower_one by lra; field; lra).
  apply (derivable_pt_lim_comp (fun V => V / V0) (fun x => Rpower x y)).
  - apply (derivable_pt_lim_ext (fun V => / V0 * id V)).
    + intros z. unfold id. field. lra.
    + apply D_scal, derivable_pt_lim_id.
  - apply derivable_pt_lim_power. rewrite Rdiv_diag; lra.
Qed.

Lemma D_birch_murnaghan (V0 K0 K0_prime : R) :
  0 < V0 ->
  derivable_pt_lim (fun V => ClosedForm.birch_murnaghan V V0 K0 K0_prime) V0
    (- K0 / V0).
Proof.
  intros HV0. unfold ClosedForm.birch_murnaghan. cbv zeta.
  pose (f := fun V => 3 / 2 * K0 * (Rpower (V0 / V) (7 / 3) - Rpower (V0 / V) (5 / 3))).
  pose (g := fun V => 1 + 3 / 4 * (K0_prime - 4) * (Rpower (V0 / V) (2 / 3) - 1)).
  assert (Hf : derivable_pt_lim f V0 (3 / 2 * K0 * (- (7 / 3) / V0 - - (5 / 3) / V0))).
  { unfold f. apply D_scal, D_minus; now apply D_ratio_power. }
  assert (Hg : derivable_pt_lim g V0 (3 / 4 * (K0_prime - 4) * (- (2 / 3) / V0))).
  { unfold g. apply D_shift, D_scal, D_minus_one. now apply D_ratio_power. }
  replace (- K0 / V0)
    with (3 / 2 * K0 * (- (7 / 3) / V0 - - (5 / 3) / V0) * g V0
          + f V0 * (3 / 4 * (K0_prime - 4) * (- (2 / 3) / V0))).
  - exact (D_mult f g V0 _ _ Hf Hg).
  - unfold f, g. rewrite Rdiv_diag, !Rpower_one by lra. field. lra.
Qed.

Lemma D_vinet (V0 K0 K0_prime : R) :
  0 < V0 ->
  derivable_pt_lim (fun V => ClosedForm.vinet V V0 K0 K0_prime) V0 (- K0 / V0).
Proof.
  intros HV0. unfold ClosedForm.vinet. cbv zeta.
  pose (x := fun V => Rpower (V / V0) (1 / 3)).
  pose (f := fun V => 3 * K0 * (1 - x V)).
  pose (g := fun V => Rtrigo_def.exp (3 / 2 * (K0_prime - 1) * (1 - x V))).
  assert (Hx : derivable_pt_lim x V0 (1 / 3 / V0))
    by (unfold x; now apply D_inverse_ratio_power).
  assert (Hf : derivable_pt_lim f V0 (3 * K0 * - (1 / 3 / V0))).
  { unfold f. now apply D_scal, D_one_minus. }
  assert (Hg : derivable_pt_lim g V0
                 (Rtrigo_def.exp (3 / 2 * (K0_prime - 1) * (1 - x V0))
                  * (3 / 2 * (K0_prime - 1) * - (1 / 3 / V0)))).
  { unfold g.
    apply (derivable_pt_lim_comp
             (fun V => 3 / 2 * (K0_prime - 1) * (1 - x V)) Rtrigo_def.exp).
    - now apply D_scal, D_one_minus.
    - apply derivable_pt_lim_exp. }
  replace (- K0 / V0)
    with (3 * K0 * - (1 / 3 / V0) * g V0
          + f V0 * (Rtrigo_def.exp (3 / 2 * (K0_prime - 1) * (1 - x V0))
                    * (3 / 2 * (K0_prime - 1) * - (1 / 3 / V0)))).
  - exact (D_mult f g V0 _ _ Hf Hg).
  - unfold f, g, x. rewrite Rdiv_diag, !Rpower_one by lra.
    replace (3 / 2 * (K0_prime - 1) * (1 - 1)) with 0 by ring.
    rewrite exp_0. field. lra.
Qed.

(** X6. [K0] is the bulk modulus at the reference volume: in [eos.py]
    both model functions have, at [V = V0 > 0], the slope
    [dP/dV = - K0 / V0], that is [- V dP/dV = K0]. In [eos_addition.py]
    the slope of Birch-Murnaghan is [- 160 / V0] whatever [K0] is passed. *)
Theorem bulk_modulus_at_reference_volume (V0 K0 K0_prime : R) :
  0 < V0 ->
  derivable_pt_lim
    (fun V => real_of (Eos.birch_murnaghan (Fin V) (Fin V0) (Fin K0) (Fin K0_prime)))
    V0 (- K0 / V0)
  /\ derivable_pt_lim
       (fun V => real_of (Eos.vinet (Fin V) (Fin V0) (Fin K0) (Fin K0_prime)))
       V0 (- K0 / V0)
  /\ derivable_pt_lim
       (fun V => real_of (EosAddition.birch_murnaghan (Fin V) (Fin V0) (Fin K0)
                            (Fin K0_prime)))
       V0 (- 160 / V0).
Proof.
  intros HV0.
  assert (Hnear : 0 < V0 < V0 + 1) by lra.
  split; [| split].
  - apply (derivable_pt_lim_locally_ext
             (fun V => ClosedForm.birch_murnaghan V V0 K0 K0_prime) _ V0 0 (V0 + 1));
      [exact Hnear | | now apply D_birch_murnaghan].
    intros z [Hz _]. now rewrite birch_murnaghan_real.
  - apply (derivable_pt_lim_locally_ext
             (fun V => ClosedForm.vinet V V0 K0 K0_prime) _ V0 0 (V0 + 1));
      [exact Hnear | | now apply D_vinet].
    intros z [Hz _]. now rewrite vinet_real.
  - apply (derivable_pt_lim_locally_ext
             (fun V => ClosedForm.birch_murnaghan V V0 160 K0_prime) _ V0 0 (V0 + 1));
      [exact Hnear | | now apply D_birch_murnaghan].
    intros z [Hz _]. rewrite birch_murnaghan_at_160.
    change (@of_int float64 _ 160) with (Fin 160).
    now rewrite birch_murnaghan_real.
Qed.

Lemma bulk_modulus_at_reference_volume_witness :
  0 < 10
  /\ derivable_pt_lim
       (fun V => real_of (Eos.vinet (Fin V) (Fin 10) (Fin 160) (Fin 4)))
       10 (- 160 / 10).
Proof.
  assert (H10 : 0 < 10) by lra.
  split; [exact H10 |].
  exact (proj1 (proj2 (bulk_modulus_at_reference_volume 10 160 4 H10))).
Defined.

End BulkModulus.

(* ================================================================== *)
(** * Further properties of the runs *)

Section EosOutput.
Context {A : Type} `{Float64 A}.
Variable env : Env A.

(** X7. [eos.py] saves its figure exactly when the run completes: a run
    that ends normally has one [savefig], a run that stops early (read
    error, missing column, empty table, failed fit of either model) has
    none. The file is always [output_file], at the default resolution. *)
Theorem eos_saves_exactly_when_complete (args : Eos.Args) :
  count is_savefig (trace (Eos.main env args))
  = match outcome (Eos.main env args) with
    | inr _ => 1
    | inl _ => 0
    end
  /\ Forall (saves_to (Eos.output_file args) None) (trace (Eos.main env args)).
Proof.
  split.
  - unfold count, Eos.main, Eos.data_loader, Eos.read_data.
    destruct (read_excel env _ _) as [e | df]; [reflexivity |].
    cbn [emit ret bind app].
    destruct (issubset _ _); cbn [negb when bind ret print emit exit app];
      [| reflexivity].
    unfold Eos.fit_and_plot, column, index, Eos.call_curve_fit.
    destruct (getitem df (Eos.volume_column args)) as [V |]; [| reflexivity].
    destruct (getitem df (Eos.pressure_column args)) as [P |]; [| reflexivity].
    rewrite !bind_ret.
    destruct V as [| v0 V]; [reflexivity |]. cbn [nth_error]. rewrite bind_ret.
    destruct (curve_fit env (Eos.model_fn BirchMurnaghan) (v0 :: V) P _ None)
      as [e | [[a b] c]]; [reflexivity |].
    destruct (curve_fit env (Eos.model_fn Vinet) (v0 :: V) P _ None)
      as [e | [[a' b'] c']]; reflexivity.
  - unfold Eos.main, Eos.data_loader, Eos.fit_and_plot, Eos.read_data,
      Eos.call_curve_fit.
    repeat forall_step; solve [exact I | split; reflexivity].
Qed.

(** X8. The complete run of [eos.py]: when the table loads with both
    columns and at least one row and both fits succeed, the run is the
    read, the two fitting calls each followed by its parameter line, the
    fitted Birch-Murnaghan curve, the data points, the decorations, one
    [savefig] and [show], and it ends normally. The Vinet parameters are
    printed and appear nowhere in the figure. *)
Theorem eos_complete_run_trace (args : Eos.Args) (df : DataFrame A)
  (P rest : list A) (v0 : A) (bm vn : A * A * A) :
  read_excel env (Eos.filename args) (requested args) = inr df ->
  getitem df (Eos.pressure_column args) = Some P ->
  getitem df (Eos.volume_column args) = Some (v0 :: rest) ->
  curve_fit env Eos.birch_murnaghan (v0 :: rest) P [v0; of_int 1; of_int 1] None
  = inr bm ->
  curve_fit env Eos.vinet (v0 :: rest) P [v0; of_int 1; of_int 1] None
  = inr vn ->
  Eos.main env args
  = (eos_complete_run args (v0 :: rest) P [v0; of_int 1; of_int 1] bm vn, inr tt).
Proof.
  intros Hread HP HV Hbm Hvn.
  assert (Hsub : issubset (requested args) (columns df) = true).
  { apply issubset_In. intros c [<- | [<- | []]]; eapply getitem_In; eassumption. }
  rewrite (main_after_loader env args _ df (data_loader_ok env args df Hread Hsub)).
  unfold Eos.fit_and_plot, column, index, Eos.call_curve_fit.
  rewrite HV, HP. simpl. rewrite Hbm, Hvn.
  destruct bm as [[a b] c], vn as [[a' b'] c']. reflexivity.
Qed.


End EosOutput.

(** The ways one pass of the loop of [eos_addition.py] can go, one goal
    for each; [tac] closes the passes that stop before the first fit. *)
Ltac addition_pass_cases env args ps vs data i tac :=
  unfold EosAddition.main_loop_body, EosAddition.color_of, index, column,
    EosAddition.call_curve_fit;
  destruct (nth_error ps i) as [pc |] eqn:Hpc; [| tac];
  destruct (nth_error vs i) as [vc |] eqn:Hvc; [| tac];
  rewrite !bind_ret;
  destruct (issubset [pc; vc] (columns data)) eqn:Hsub;
    cbn [negb when bind ret print emit exit app]; [| tac];
  destruct (getitem data pc) as [P |] eqn:HP; [| tac];
  destruct (getitem data vc) as [V |] eqn:HV; [| tac];
  rewrite !bind_ret;
  destruct (header_only data) eqn:Hheader;
    [rewrite (missing_test_object data P V) by exact Hheader; tac
    | rewrite (missing_test_float data P V) by exact Hheader];
  destruct (any_isnan P || any_isnan V) eqn:Hnan; [tac |];
  destruct V as [| v0 V]; [tac |];
  cbn [nth_error]; rewrite bind_ret;
  destruct (curve_fit env (EosAddition.model_fn BirchMurnaghan) (v0 :: V) P
              [v0; of_int 160; of_int 5] (Some 5000%Z))
    as [e | [[a b] c]] eqn:Hbm;
    [| destruct (curve_fit env (EosAddition.model_fn Vinet) (v0 :: V) P
                   [v0; of_int 160; of_int 5] None)
         as [e | [[a' b'] c']] eqn:Hvn;
       [| destruct (EosAddition.colors args) as [| c0 cs] eqn:Hcolors;
          [| destruct (nth_error (c0 :: cs) (i mod length (c0 :: cs)))
               as [color |] eqn:Hcolor]]].

Section Counting.
Context {A : Type} `{Float64 A}.

Lemma count_app (kind : event A -> bool) (t1 t2 : list (event A)) :
  count kind (t1 ++ t2) = count kind t1 + count kind t2.
Proof. unfold count. now rewrite filter_app, length_app. Qed.

Lemma count_bind_le {X Y} (kind : event A -> bool) (m : M A X) (k : X -> M A Y)
  (a b : nat) :
  count kind (trace m) <= a ->
  (forall x, count kind (trace (k x)) <= b) ->
  count kind (trace (bind m k)) <= a + b.
Proof.
  intros Hm Hk. rewrite trace_bind. destruct (outcome m) as [s | x].
  - lia.
  - rewrite count_app. specialize (Hk x). lia.
Qed.

Lemma count_for_each_le (kind : event A -> bool) (n : nat) (l : list nat)
  (body : nat -> M A unit) :
  (forall i, count kind (trace (body i)) <= n) ->
  count kind (trace (for_each l body)) <= n * length l.
Proof.
  intros Hbody. induction l as [| i rest IH]; simpl.
  - unfold count. simpl. lia.
  - replace (n * S (length rest)) with (n + n * length rest) by lia.
    apply count_bind_le; [apply Hbody | intros _; exact IH].
Qed.

End Counting.

Section AdditionOutput.
Context {A : Type} `{Float64 A}.
Variable env : Env A.

Lemma addition_pass_counts (args : EosAddition.Args) (ps vs : list string)
  (data : DataFrame A) (i : nat) :
  count is_fit (trace (EosAddition.main_loop_body env args ps vs data i)) <= 2
  /\ count is_savefig (trace (EosAddition.main_loop_body env args ps vs data i)) <= 1.
Proof.
  addition_pass_cases env args ps vs data i ltac:(split; cbn; lia);
    split; cbn; lia.
Qed.

Lemma bind_emit {X} (e : event A) (k : unit -> M A X) :
  bind (emit e) k = (e :: trace (k tt), outcome (k tt)).
Proof. unfold bind, emit. now destruct (k tt). Qed.

(** X10. Neither program fits a dataset twice: a run of [eos.py] makes
    at most two fitting calls, and a run of [eos_addition.py] over [n]
    column pairs makes at most [2 n] fitting calls and saves the figure at
    most [n] times, always to [output_file] at 800 dpi. *)
Theorem fitting_calls_bounded :
  (forall args : Eos.Args, count is_fit (trace (Eos.main env args)) <= 2)
  /\ (forall (args : EosAddition.Args) ps,
        EosAddition.pressures args = Some ps ->
        count is_fit (trace (EosAddition.main env args)) <= 2 * length ps
        /\ count is_savefig (trace (EosAddition.main env args)) <= length ps)
  /\ (forall args : EosAddition.Args,
        Forall (saves_to (EosAddition.output_file args) (Some 800%Z))
          (trace (EosAddition.main env args))).
Proof.
  split; [| split].
  - intros args. unfold count, Eos.main, Eos.data_loader, Eos.read_data.
    destruct (read_excel env _ _) as [e | df]; [cbn; lia |].
    cbn [emit ret bind app].
    destruct (issubset _ _); cbn [negb when bind ret print emit exit app];
      [| cbn; lia].
    unfold Eos.fit_and_plot, column, index, Eos.call_curve_fit.
    destruct (getitem df (Eos.volume_column args)) as [V |]; [| cbn; lia].
    destruct (getitem df (Eos.pressure_column args)) as [P |]; [| cbn; lia].
    rewrite !bind_ret.
    destruct V as [| v0 V]; [cbn; lia |]. cbn [nth_error]. rewrite bind_ret.
    destruct (curve_fit env (Eos.model_fn BirchMurnaghan) (v0 :: V) P _ None)
      as [e | [[a b] c]]; [cbn; lia |].
    destruct (curve_fit env (Eos.model_fn Vinet) (v0 :: V) P _ None)
      as [e | [[a' b'] c']]; cbn; lia.
  - intros args ps Hps. unfold EosAddition.main, given. rewrite Hps, bind_ret.
    destruct (EosAddition.volumes args) as [vs |]; [| cbn; lia].
    rewrite bind_ret.
    destruct (length ps =? length vs)%nat;
      cbn [negb when]; [| cbn; lia].
    rewrite bind_ret. unfold EosAddition.read_data. rewrite bind_emit.
    destruct (read_excel env _ _) as [e | df]; [cbn; lia |].
    rewrite trace_bind. cbn [ret emit trace outcome fst snd app].
    rewrite bind_emit. cbn [trace fst].
    change (count is_fit (ReadExcel ?f ?c :: Interpolate ?d :: ?t))
      with (count is_fit t).
    change (count is_savefig (ReadExcel ?f ?c :: Interpolate ?d :: ?t))
      with (count is_savefig t).
    unfold for_range.
    pose proof (count_for_each_le is_fit 2 (seq 0 (length ps)) _
                  (fun i => proj1 (addition_pass_counts args ps vs
                                     (interpolate env df) i))) as Hfits.
    pose proof (count_for_each_le is_savefig 1 (seq 0 (length ps)) _
                  (fun i => proj2 (addition_pass_counts args ps vs
                                     (interpolate env df) i))) as Hsaves.
    rewrite length_seq in Hfits, Hsaves. lia.
  - intros args. unfold EosAddition.main.
    forall_bind as ps Hps; [forall_step |].
    forall_bind as vs Hvs; [forall_step |].
    forall_bind as u Hu; [repeat forall_step; exact I |].
    forall_bind as df Hdf.
    { unfold EosAddition.read_data. repeat forall_step; exact I. }
    forall_bind as u' Hu'; [forall_step; exact I |].
    forall_step.
    addition_pass_cases env args ps vs (interpolate env df) i
      ltac:(repeat constructor);
      cbn; repeat constructor.
Qed.

(** X11. One complete pass of [eos_addition.py]: for a pair without
    missing values and with a first row whose two fits succeed, the pass
    makes the two fitting calls, each followed by its parameter line naming
    the two columns, draws the fitted Birch-Murnaghan curve and the data
    points, both in the colour [colors[i % len(colors)]] and the points
    labelled with the volume column's name, decorates and saves the
    figure, and returns to the loop. *)
Theorem addition_complete_pass_trace (args : EosAddition.Args)
  (ps vs : list string) (data : DataFrame A) (i : nat) (pc vc color : string)
  (P rest : list A) (v0 : A) (bm vn : A * A * A) :
  nth_error ps i = Some pc ->
  nth_error vs i = Some vc ->
  getitem data pc = Some P ->
  getitem data vc = Some (v0 :: rest) ->
  any_isnan P || any_isnan (v0 :: rest) = false ->
  curve_fit env EosAddition.birch_murnaghan (v0 :: rest) P
    [v0; of_int 160; of_int 5] (Some 5000%Z) = inr bm ->
  curve_fit env EosAddition.vinet (v0 :: rest) P
    [v0; of_int 160; of_int 5] None = inr vn ->
  nth_error (EosAddition.colors args) (i mod length (EosAddition.colors args))
  = Some color ->
  EosAddition.main_loop_body env args ps vs data i
  = (addition_complete_pass args pc vc color (v0 :: rest) P
       [v0; of_int 160; of_int 5] bm vn,
     inr tt).
Proof.
  intros Hpc Hvc HP HV Hnan Hbm Hvn Hcolor.
  assert (Hsub : issubset [pc; vc] (columns data) = true).
  { apply issubset_In. intros c [<- | [<- | []]]; eapply getitem_In; eassumption. }
  unfold EosAddition.main_loop_body, EosAddition.color_of, index, column,
    EosAddition.call_curve_fit.
  rewrite Hpc, Hvc, !bind_ret, Hsub.
  cbn [negb when]. rewrite bind_ret, HP, bind_ret, HV, bind_ret.
  rewrite missing_test_float, Hnan by exact (row_not_header_only data vc v0 rest HV).
  cbn [nth_error]. rewrite bind_ret.
  change (EosAddition.model_fn BirchMurnaghan) with (@EosAddition.birch_murnaghan A _).
  change (EosAddition.model_fn Vinet) with (@EosAddition.vinet A _).
  rewrite Hbm, Hvn.
  revert Hcolor. destruct (EosAddition.colors args) as [| c0 cs]; intros Hcolor.
  { apply nth_error_In in Hcolor. destruct Hcolor. }
  rewrite Hcolor. destruct bm as [[a b] c], vn as [[a' b'] c']. reflexivity.
Qed.


(** A stretch of the loop in which every pair has a missing value. *)
Lemma addition_loop_all_skipped (args : EosAddition.Args) (ps vs : list string)
  (data : DataFrame A) (body : nat -> M A unit) :
  forall (later_ps later_vs : list string) (k : nat),
    length later_ps = length later_vs ->
    (forall j pc vc,
        nth_error later_ps j = Some pc -> nth_error later_vs j = Some vc ->
        body (k + j) = ([Print (missing_values_line pc vc)], inr tt)) ->
    for_each (seq k (length later_ps)) body
    = (map (fun cols => Print (missing_values_line (fst cols) (snd cols)))
         (combine later_ps later_vs),
       inr tt).
Proof.
  induction later_ps as [| pc later_ps IH]; intros [| vc later_vs] k Hlen Hbody;
    try discriminate; [reflexivity |].
  pose proof (Hbody 0 pc vc eq_refl eq_refl) as Hfirst.
  rewrite Nat.add_0_r in Hfirst.
  simpl. rewrite Hfirst, (IH later_vs (S k)).
  - reflexivity.
  - simpl in Hlen. congruence.
  - intros j pc' vc' Hpc' Hvc'.
    replace (S k + j) with (k + S j) by lia. now apply Hbody.
Qed.

(** X13. When every column pair has a missing value after interpolation,
    [eos_addition.py] ends normally having printed one warning per pair,
    in order: nothing is fitted and no figure is written. *)
Theorem addition_all_pairs_skipped (args : EosAddition.Args)
  (ps vs : list string) (df : DataFrame A) :
  EosAddition.pressures args = Some ps ->
  EosAddition.volumes args = Some vs ->
  length ps = length vs ->
  read_excel env (EosAddition.filename args) (ps ++ vs) = inr df ->
  (forall i pc vc,
      nth_error ps i = Some pc -> nth_error vs i = Some vc ->
      exists P V,
        getitem (interpolate env df) pc = Some P
        /\ getitem (interpolate env df) vc = Some V
        /\ any_isnan P || any_isnan V = true) ->
  EosAddition.main env args
  = (ReadExcel (EosAddition.filename args) (ps ++ vs)
       :: Interpolate df
       :: map (fun cols => Print (missing_values_line (fst cols) (snd cols)))
            (combine ps vs),
     inr tt).
Proof.
  intros Hps Hvs Hlen Hread Hnan.
  rewrite (addition_main_reads_then_interpolates env args ps vs df Hps Hvs Hlen Hread).
  unfold for_range.
  rewrite (addition_loop_all_skipped args ps vs (interpolate env df) _ ps vs 0 Hlen).
  - reflexivity.
  - intros j pc vc Hpc Hvc. destruct (Hnan j pc vc Hpc Hvc) as [P [V [HP [HV Hn]]]].
    now apply (addition_body_skips env args ps vs _ j pc vc P V).
Qed.

(** X14. Without [--pressures] or without [--volumes],
    [eos_addition.py] dies on an uncaught [TypeError] at the length test:
    nothing has been printed or read. *)
Theorem addition_option_not_given (args : EosAddition.Args) :
  EosAddition.pressures args = None \/ EosAddition.volumes args = None ->
  EosAddition.main env args = ([], inl (Uncaught TypeError)).
Proof.
  unfold EosAddition.main. intros [Hnone | Hnone]; rewrite Hnone.
  - reflexivity.
  - now destruct (EosAddition.pressures args).
Qed.

(** X15. When the spreadsheet cannot be read, the run of
    [eos_addition.py] is the read, the line [Error reading file: ...] and
    [exit()]: the table is not interpolated and no pair is looked at. *)
Theorem addition_unreadable_file (args : EosAddition.Args)
  (ps vs : list string) (e : string) :
  EosAddition.pressures args = Some ps ->
  EosAddition.volumes args = Some vs ->
  length ps = length vs ->
  read_excel env (EosAddition.filename args) (ps ++ vs) = inl e ->
  EosAddition.main env args
  = ([ReadExcel (EosAddition.filename args) (ps ++ vs);
      Print [Text "Error reading file: "; Text e]],
     inl Exit).
Proof.
  intros Hps Hvs Hlen Hread. unfold EosAddition.main, EosAddition.read_data.
  rewrite Hps, Hvs. simpl.
  rewrite (proj2 (Nat.eqb_eq _ _) Hlen). simpl.
  now rewrite Hread.
Qed.

End AdditionOutput.

Section FurtherSampleRuns.
Import Sample.
Local Open Scope string_scope.

Lemma eos_complete_run_trace_witness :
  Eos.main env (eos_args "data.xlsx")
  = (eos_complete_run (eos_args "data.xlsx")
       [Fin 10; Fin (98 / 10); Fin (96 / 10); Fin (92 / 10)] pressures_GPa
       [Fin 10; Fin 1; Fin 1] popt popt,
     inr tt).
Proof.
  exact (eos_complete_run_trace env (eos_args "data.xlsx") table pressures_GPa
           [Fin (98 / 10); Fin (96 / 10); Fin (92 / 10)] (Fin 10) popt popt
           eq_refl eq_refl eq_refl eq_refl eq_refl).
Defined.

Lemma fitting_calls_bounded_witness :
  count is_fit (trace addition_on_table) <= 2 * 1
  /\ count is_savefig (trace addition_on_table) <= 1.
Proof.
  exact (proj1 (proj2 (fitting_calls_bounded env))
           (addition_args "data.xlsx" ["P_GPa"] ["V_A3"]) ["P_GPa"] eq_refl).
Defined.

Lemma addition_complete_pass_trace_witness :
  EosAddition.main_loop_body env (addition_args "data.xlsx" ["P_GPa"] ["V_A3"])
    ["P_GPa"] ["V_A3"] table 0
  = (addition_complete_pass (addition_args "data.xlsx" ["P_GPa"] ["V_A3"])
       "P_GPa" "V_A3" "mediumblue"
       [Fin 10; Fin (98 / 10); Fin (96 / 10); Fin (92 / 10)] pressures_GPa
       [Fin 10; Fin 160; Fin 5] popt popt,
     inr tt).
Proof.
  exact (addition_complete_pass_trace env
           (addition_args "data.xlsx" ["P_GPa"] ["V_A3"]) ["P_GPa"] ["V_A3"]
           table 0 "P_GPa" "V_A3" "mediumblue" pressures_GPa
           [Fin (98 / 10); Fin (96 / 10); Fin (92 / 10)] (Fin 10) popt popt
           eq_refl eq_refl eq_refl eq_refl eq_refl eq_refl eq_refl eq_refl).
Defined.

Lemma gaps_pair_has_missing_value :
  forall i pc vc,
    nth_error ["P_GPa"] i = Some pc -> nth_error ["V_A3"] i = Some vc ->
    exists P V,
      getitem (interpolate env gaps) pc = Some P
      /\ getitem (interpolate env gaps) vc = Some V
      /\ any_isnan P || any_isnan V = true.
Proof.
  intros [| i] pc vc Hpc Hvc.
  - injection Hpc as <-. injection Hvc as <-.
    eexists. eexists. repeat split; reflexivity.
  - destruct i; discriminate.
Qed.

Lemma addition_all_pairs_skipped_witness :
  addition_on_gaps
  = ([ReadExcel "gaps.xlsx" ["P_GPa"; "V_A3"]; Interpolate gaps;
      Print (missing_values_line "P_GPa" "V_A3")],
     inr tt).
Proof.
  exact (addition_all_pairs_skipped env
           (addition_args "gaps.xlsx" ["P_GPa"] ["V_A3"]) ["P_GPa"] ["V_A3"] gaps
           eq_refl eq_refl eq_refl eq_refl gaps_pair_has_missing_value).
Defined.

Lemma addition_option_not_given_witness :
  EosAddition.main env
    {| EosAddition.figure_title := "EOS";
       EosAddition.output_file := "fits.png";
       EosAddition.filename := "data.xlsx";
       EosAddition.pressures := Some ["P_GPa"];
       EosAddition.volumes := None;
       EosAddition.colors := EosAddition.default_colors |}
  = ([], inl (Uncaught TypeError)).
Proof.
  apply (addition_option_not_given env). right. reflexivity.
Defined.

Lemma addition_unreadable_file_witness :
  EosAddition.main env (addition_args "nofile.xlsx" ["P_GPa"] ["V_A3"])
  = ([ReadExcel "nofile.xlsx" ["P_GPa"; "V_A3"];
      Print [Text "Error reading file: "; Text "No such file or directory"]],
     inl Exit).
Proof.
  exact (addition_unreadable_file env
           (addition_args "nofile.xlsx" ["P_GPa"] ["V_A3"]) ["P_GPa"] ["V_A3"]
           "No such file or directory" eq_refl eq_refl eq_refl eq_refl).
Defined.

End FurtherSampleRuns.
